(** * bytechomp: schema derivation and pattern compilation

    A shallow embedding of [bytechomp/data_descriptor.py]:
    [build_data_description] walks the fields of a dataclass and produces an
    ordered description of the binary layout, [build_data_pattern] flattens
    such a description into the format string handed to [struct].

    The module [bytechomp.datatypes] (the registry of elementary types) is
    imported by the source but is not part of it; the development is
    parameterised over it, and over what the interpreter decides: the range
    of index-sized integers, the memory for a list, the limit on the digits
    of an integer converted to text, the text of the type of an object. *)

From Stdlib Require Import String List ZArith Lia Bool Ascii DecimalString.
Import ListNotations.
Local Open Scope string_scope.
Local Open Scope Z_scope.

Set Implicit Arguments.
Set Warnings "-register-all,-notation-for-abbreviation".

(** ** Python values and exceptions *)

(** Values that occur as field defaults and as [Annotated] metadata.  Only the
    distinctions the source observes are kept: [type(length) != int] tells an
    [int] from everything else ([bool] included), [field.default == MISSING]
    tells a declared default of any value from an absent one. *)
Inductive pyobj : Type :=
| PNone
| PInt (z : Z)
| PBool (b : bool)
| PStr (s : string)
| PBytes (b : list Byte.byte)
| POther (repr : string).

(** [type(o) == int] *)
Definition is_int (o : pyobj) : bool :=
  match o with PInt _ => true | _ => false end.

(** [raise Exception(msg)] in the source; [fields()] raises [TypeError] on a
    type that is not a dataclass, [description.items()] raises [AttributeError]
    on an object that is not a dictionary.  The interpreter raises
    [OverflowError] and [MemoryError] from a list multiplication and
    [ValueError] from the conversion of an [int] to text. *)
Inductive exn : Type :=
| Exception (msg : string)
| TypeError (msg : string)
| AttributeError (msg : string)
| OverflowError (msg : string)
| MemoryError (msg : string)
| ValueError (msg : string).

Inductive result (A : Type) : Type :=
| Ok (a : A)
| Raise (e : exn).
Arguments Raise {A} e.

Definition bind {A B : Type} (r : result A) (k : A -> result B) : result B :=
  match r with
  | Ok a => k a
  | Raise e => Raise e
  end.

Notation "x <- r ;; k" := (bind r (fun x => k))
  (at level 61, r at next level, right associativity).

Definition is_ok {A : Type} (r : result A) : bool :=
  match r with Ok _ => true | Raise _ => false end.

(** [str(n)] for a Python [int]: decimal digits, a leading minus sign when
    negative. *)
Definition str_of_int (n : Z) : string := NilZero.string_of_int (Z.to_int n).

(** [sub in s] on strings. *)
Fixpoint contains (sub s : string) : bool :=
  if String.prefix sub s then true
  else match s with
       | EmptyString => false
       | String _ s' => contains sub s'
       end.

(** ** Ordered dictionaries

    [collections.OrderedDict] with string keys: insertion order is kept,
    assigning to a key that is present replaces the value in place. *)
Section OrderedDict.
Variable V : Type.

Definition OrderedDict := list (string * V).

Fixpoint od_set (k : string) (v : V) (od : OrderedDict) : OrderedDict :=
  match od with
  | [] => [(k, v)]
  | (k', v') :: rest =>
      if String.eqb k' k then (k, v) :: rest
      else (k', v') :: od_set k v rest
  end.

Fixpoint od_get (k : string) (od : OrderedDict) : option V :=
  match od with
  | [] => None
  | (k', v') :: rest => if String.eqb k' k then Some v' else od_get k rest
  end.
End OrderedDict.

Section Registry.

(** The members of [ELEMENTARY_TYPE_LIST]. *)
Variable ELEMENTARY_TYPE : Type.

(** ** Type objects

    The declared type of a field, classified by the tests the source applies
    to it, in the order it applies them. *)
Record Field (T : Type) : Type := mkField {
  name : string;
  type : T;
  default : option pyobj           (* [None] is [MISSING] *)
}.

Inductive pytype : Type :=
| TElementary (k : ELEMENTARY_TYPE)       (* [t in ELEMENTARY_TYPE_LIST] *)
| TDataclass (qualname : string) (flds : list (Field pytype))
                                          (* [isclass(t) and is_dataclass(t)] *)
| TAnnotated (arg_type : pytype) (metadata : list pyobj)
                                          (* [get_origin(t) == Annotated];
                                             [get_args(t)] is
                                             [arg_type :: metadata] *)
| TListOf (list_type_args : list pytype)  (* [get_origin(t) == list] *)
| TList                                   (* the builtin [list] *)
| TBytes                                  (* the builtin [bytes] *)
| TStr                                    (* the builtin [str] *)
| TOther (repr : string).                 (* any other object *)

Definition field := Field pytype.

(** The three tables of the registry. *)
Variable TYPE_TO_PYTYPE : ELEMENTARY_TYPE -> pytype.
Variable TYPE_TO_TAG : ELEMENTARY_TYPE -> string.
Variable TYPE_TO_LENGTH : ELEMENTARY_TYPE -> Z.

(** [str(t)] of a type object, as interpolated into error messages. *)
Variable py_str : pytype -> string.

(** What the interpreter decides: [sys.maxsize], the largest index-sized
    integer; the length of the longest list it manages to allocate;
    [sys.get_int_max_str_digits()], the limit on the digits of an [int]
    converted to text, [0] when there is none; and [str(type(x))] of an
    object. *)
Class Interpreter : Type := {
  maxsize : Z;
  list_capacity : Z;
  int_max_str_digits : Z;
  py_type_str : pytype -> string
}.

Context {interpreter : Interpreter}.

(** [[x] * n].  A count that is not an index-sized integer is refused, a
    count of zero or less gives the empty list, a list too long for the
    memory is not allocated. *)
Definition index_sized (n : Z) : bool :=
  (- maxsize - 1 <=? n) && (n <=? maxsize).

Definition list_mul {A : Type} (x : A) (n : Z) : result (list A) :=
  if negb (index_sized n)
  then Raise (OverflowError "cannot fit 'int' into an index-sized integer")
  else if (0 <? n) && (list_capacity <? n)
       then Raise (MemoryError "")
       else Ok (repeat x (Z.to_nat n)).

(** [f"{n}"], the conversion the tags [f"{length}s"] and [f"{length}p"] start
    with: refused when the number has more digits than the limit. *)
Definition format_int (n : Z) : result string :=
  if (0 <? int_max_str_digits)
     && (int_max_str_digits <? Z.of_nat (String.length (str_of_int (Z.abs n))))
  then Raise (ValueError ("Exceeds the limit (" ++ str_of_int int_max_str_digits
                          ++ " digits) for integer string conversion; "
                          ++ "use sys.set_int_max_str_digits() to increase the limit"))
  else Ok (str_of_int n).

(** ** Descriptions *)

Record BasicParsingElement : Type := mkBasic {
  parsing_type : pytype;
  python_type : pytype;
  parser_tag : string;
  length : Z;
  default_value : pyobj;
  raw_data : list Byte.byte;
  parsed_value : pyobj
}.

(** The values stored in a description. *)
Inductive element : Type :=
| EType (datatype : pytype)               (* under ["__struct_type__"] *)
| EBasic (e : BasicParsingElement)
| EList (l : list element)
| EDict (d : list (string * element)).

Definition description := OrderedDict element.

Definition STRUCT_TYPE : string := "__struct_type__".

(** ** [build_data_description] *)

Definition default_or_None (f : field) : pyobj :=
  match default f with
  | None => PNone
  | Some v => v
  end.

Definition elementary_element (t : pytype) (k : ELEMENTARY_TYPE) (dflt : pyobj)
  : BasicParsingElement :=
  {| parsing_type := t;
     python_type := TYPE_TO_PYTYPE k;
     parser_tag := TYPE_TO_TAG k;
     length := TYPE_TO_LENGTH k;
     default_value := dflt;
     raw_data := [];
     parsed_value := PNone |}.

Section FieldLoop.
(** The recursive call on a nested dataclass. *)
Variable rec : pytype -> result description.

(** The body of the [for field in fields(datatype)] loop: the value that is
    assigned to [object_description[field.name]]. *)
Definition field_element (f : field) : result element :=
  match type f with
  | TElementary k =>
      Ok (EBasic (elementary_element (type f) k (default_or_None f)))
  | TDataclass _ _ =>
      match default f with
      | Some _ =>
          Raise (Exception ("cannot have default value on nested types (field: "
                            ++ name f ++ ")"))
      | None => d <- rec (type f) ;; Ok (EDict d)
      end
  | TAnnotated arg_type metadata =>
      match metadata with
      | [len] =>
          match len with
          | PInt len =>
              match arg_type with
              | TStr =>
                  digits <- format_int len ;;
                  Ok (EBasic {| parsing_type := TStr;
                                python_type := TStr;
                                parser_tag := digits ++ "s";
                                length := len;
                                default_value := default_or_None f;
                                raw_data := [];
                                parsed_value := PNone |})
              | TBytes =>
                  digits <- format_int len ;;
                  Ok (EBasic {| parsing_type := TBytes;
                                python_type := TBytes;
                                parser_tag := digits ++ "p";
                                length := len;
                                default_value := default_or_None f;
                                raw_data := [];
                                parsed_value := PNone |})
              | TListOf list_type_args =>
                  match list_type_args with
                  | [list_type] =>
                      match list_type with
                      | TElementary k =>
                          l <- list_mul
                                 (EBasic (elementary_element list_type k PNone))
                                 len ;;
                          Ok (EList l)
                      | TDataclass _ _ =>
                          d <- rec list_type ;;
                          l <- list_mul (EDict d) len ;;
                          Ok (EList l)
                      | _ =>
                          Raise (Exception ("unsupported list type: "
                                            ++ py_str list_type
                                            ++ " (field: " ++ name f ++ ")"))
                      end
                  | _ =>
                      Raise (Exception
                               ("list must contain only one kind of data type (field: "
                                ++ name f ++ ")"))
                  end
              | _ =>
                  Raise (Exception ("unsupported annotated type: "
                                    ++ py_str arg_type
                                    ++ " (field: " ++ name f ++ ")"))
              end
          | _ =>
              Raise (Exception
                       "second annotated argument must be an integer to denote length")
          end
      | _ =>
          Raise (Exception ("annotated value should only have two arguments (field: "
                            ++ name f ++ ")"))
      end
  | TList | TBytes | TStr =>
      Raise (Exception
               ("cannot have unannotated list, string, or bytes type (length required, field: "
                ++ name f ++ ")"))
  | TListOf _ | TOther _ =>
      Raise (Exception ("unsupported data type (" ++ py_str (type f)
                        ++ ") on field " ++ name f))
  end.

(** The loop itself, threading [object_description]. *)
Fixpoint fields_loop (flds : list field) (object_description : description)
  : result description :=
  match flds with
  | [] => Ok object_description
  | f :: rest =>
      e <- field_element f ;;
      fields_loop rest (od_set (name f) e object_description)
  end.
End FieldLoop.

Fixpoint build_data_description (datatype : pytype) : result description :=
  match datatype with
  | TDataclass _ flds =>
      fields_loop build_data_description flds [(STRUCT_TYPE, EType datatype)]
  | _ => Raise (TypeError "must be called with a dataclass type or instance")
  end.

(** ** [build_data_pattern] *)

Section PatternLoop.
(** The recursive call on a nested [OrderedDict]. *)
Variable rec : element -> result string.

(** The inner [for sub_element in root_element] loop. *)
Fixpoint sub_elements_loop (nm : string) (subs : list element) (pattern : string)
  : result string :=
  match subs with
  | [] => Ok pattern
  | sub_element :: rest =>
      match sub_element with
      | EBasic e => sub_elements_loop nm rest (pattern ++ parser_tag e)
      | EDict _ => s <- rec sub_element ;; sub_elements_loop nm rest (pattern ++ s)
      | _ => Raise (Exception ("invalid list type found (" ++ nm ++ ")"))
      end
  end.

(** The [if]/[elif] chain applied to an entry whose key is not the marker:
    the pattern extended by the entry. *)
Definition root_element_pattern (nm : string) (root_element : element)
           (pattern : string) : result string :=
  match root_element with
  | EBasic e => Ok (pattern ++ parser_tag e)
  | EList l => sub_elements_loop nm l pattern
  | EDict _ => s <- rec root_element ;; Ok (pattern ++ s)
  | EType t =>
      Raise (Exception ("invalid element type found (" ++ nm ++ ": "
                        ++ py_type_str t ++ ")"))
  end.

(** The outer [for name, root_element in description.items()] loop. *)
Fixpoint items_loop (items : list (string * element)) (pattern : string)
  : result string :=
  match items with
  | [] => Ok pattern
  | (nm, root_element) :: rest =>
      if String.eqb nm STRUCT_TYPE then items_loop rest pattern
      else p <- root_element_pattern nm root_element pattern ;; items_loop rest p
  end.
End PatternLoop.

Fixpoint dict_pattern (e : element) : result string :=
  match e with
  | EDict d => items_loop dict_pattern d ""
  | _ => Raise (AttributeError "object has no attribute 'items'")
  end.

Definition build_data_pattern (description : description) : result string :=
  items_loop dict_pattern description "".

(** [build_data_description] followed by [build_data_pattern]. *)
Definition pattern_of_type (datatype : pytype) : result string :=
  d <- build_data_description datatype ;; build_data_pattern d.

(** What one declared field adds to the pattern: the entry the builder
    stores for it, rendered by the compiler. *)
Definition field_pattern (f : field) : result string :=
  e <- field_element build_data_description f ;;
  root_element_pattern dict_pattern (name f) e "".

(** ** Auxiliary notions used in the statements *)

Definition is_dataclass (t : pytype) : bool :=
  match t with TDataclass _ _ => true | _ => false end.

Definition is_elementary (t : pytype) : bool :=
  match t with TElementary _ => true | _ => false end.

Fixpoint nodupb (l : list string) : bool :=
  match l with
  | [] => true
  | x :: rest => negb (existsb (String.eqb x) rest) && nodupb rest
  end.

(** Field names as [fields()] yields them for a class that does not use the
    marker key as a field name: pairwise distinct, none of them
    ["__struct_type__"]. *)
Definition field_names_ok (flds : list field) : bool :=
  nodupb (map (@name _) flds)
  && negb (existsb (String.eqb STRUCT_TYPE) (map (@name _) flds)).

(** Every [BasicParsingElement] of a description, in order, at any depth. *)
Fixpoint element_leaves (e : element) : list BasicParsingElement :=
  match e with
  | EType _ => []
  | EBasic b => [b]
  | EList l => flat_map element_leaves l
  | EDict d => flat_map (fun kv => element_leaves (snd kv)) d
  end.

Definition leaves (d : description) : list BasicParsingElement :=
  flat_map (fun kv => element_leaves (snd kv)) d.

(** The entries the compiler accepts: what may sit in a list, under a key
    other than the marker, and in a whole dictionary. *)
Fixpoint compilable (e : element) : bool :=
  match e with
  | EType _ => false
  | EBasic _ => true
  | EList l =>
      forallb (fun s => match s with
                        | EBasic _ => true
                        | EDict _ => compilable s
                        | _ => false
                        end) l
  | EDict d =>
      forallb (fun kv => String.eqb (fst kv) STRUCT_TYPE || compilable (snd kv)) d
  end.

(** The types on which the loop body, run on a field of type [t], calls
    [build_data_description]. *)
Definition rec_calls (t : pytype) : list pytype :=
  match t with
  | TDataclass _ _ => [t]
  | TAnnotated (TListOf [TDataclass qn flds]) _ => [TDataclass qn flds]
  | _ => []
  end.

(** The sized declarations of a declared type: [str] or [bytes] paired with
    the length [L], for a field declared [Annotated[str, L]] or
    [Annotated[bytes, L]]; for a dataclass those of its fields, for a list of
    dataclasses those of the dataclass. *)
Fixpoint declared_lengths (t : pytype) : list (pytype * Z) :=
  match t with
  | TDataclass _ flds => flat_map (fun f => declared_lengths (type f)) flds
  | TAnnotated TStr [PInt len] => [(TStr, len)]
  | TAnnotated TBytes [PInt len] => [(TBytes, len)]
  | TAnnotated (TListOf [(TDataclass _ _) as list_type]) _ =>
      declared_lengths list_type
  | _ => []
  end.

(** Where a [BasicParsingElement] comes from: the registry entry of its kind,
    or one of the sized declarations [decls]. *)
Definition leaf_origin (decls : list (pytype * Z)) (b : BasicParsingElement)
  : Prop :=
  match parsing_type b with
  | TElementary k => parser_tag b = TYPE_TO_TAG k /\ length b = TYPE_TO_LENGTH k
  | TStr =>
      In (TStr, length b) decls /\ parser_tag b = str_of_int (length b) ++ "s"
  | TBytes =>
      In (TBytes, length b) decls /\ parser_tag b = str_of_int (length b) ++ "p"
  | _ => False
  end.

(** [arg_type == str], [arg_type == bytes] or [get_origin(arg_type) == list]:
    the three annotated forms the builder goes on with. *)
Definition annotated_form (arg_type : pytype) : bool :=
  match arg_type with
  | TStr | TBytes | TListOf _ => true
  | _ => false
  end.

(** No field, at any depth, is called ["__struct_type__"]. *)
Fixpoint marker_free (t : pytype) : bool :=
  match t with
  | TDataclass _ flds =>
      forallb (fun f => negb (String.eqb (name f) STRUCT_TYPE) && marker_free (type f))
              flds
  | TAnnotated a _ => marker_free a
  | TListOf args => forallb marker_free args
  | _ => true
  end.

(** At any depth the entry under ["__struct_type__"] holds a type object. *)
Fixpoint marker_clean (e : element) : bool :=
  match e with
  | EType _ | EBasic _ => true
  | EList l => forallb marker_clean l
  | EDict d =>
      forallb (fun kv => if String.eqb (fst kv) STRUCT_TYPE
                         then match snd kv with EType _ => true | _ => false end
                         else marker_clean (snd kv)) d
  end.

(** The names of the fields of a type, of its nested dataclasses included. *)
Fixpoint field_names_deep (t : pytype) : list string :=
  match t with
  | TDataclass _ flds =>
      flat_map (fun f => name f :: field_names_deep (type f)) flds
  | TAnnotated a _ => field_names_deep a
  | TListOf args => flat_map field_names_deep args
  | _ => []
  end.

(** The fields whose entry the compiler looks at. *)
Definition visible_fields (flds : list field) : list field :=
  filter (fun f => negb (String.eqb (name f) STRUCT_TYPE)) flds.

(** [get_origin(t) == Annotated] and [t in [list, bytes, str]]. *)
Definition is_annotated (t : pytype) : bool :=
  match t with TAnnotated _ _ => true | _ => false end.

Definition is_bare (t : pytype) : bool :=
  match t with TList | TBytes | TStr => true | _ => false end.

End Registry.

Arguments TList {ELEMENTARY_TYPE}.
Arguments TBytes {ELEMENTARY_TYPE}.
Arguments TStr {ELEMENTARY_TYPE}.
Arguments TOther {ELEMENTARY_TYPE} repr.
Arguments dict_pattern {ELEMENTARY_TYPE interpreter} e.
Arguments maxsize {ELEMENTARY_TYPE Interpreter}.
Arguments list_capacity {ELEMENTARY_TYPE Interpreter}.
Arguments int_max_str_digits {ELEMENTARY_TYPE Interpreter}.
Arguments py_type_str {ELEMENTARY_TYPE Interpreter} _.

(** ** A concrete registry *)

(** Modelled from the spec: the registry of [bytechomp.datatypes], which is not
    among the sources.  Three of its kinds, those the scenarios of the
    specification use, with the [struct] tags and sizes quoted there. *)
Module Sample.

Inductive kind : Type := U8 | U32 | F32.

Definition py_int : pytype kind := TOther "<class 'int'>".
Definition py_float : pytype kind := TOther "<class 'float'>".

Definition TYPE_TO_PYTYPE (k : kind) : pytype kind :=
  match k with U8 | U32 => py_int | F32 => py_float end.

Definition TYPE_TO_TAG (k : kind) : string :=
  match k with U8 => "B" | U32 => "I" | F32 => "f" end.

Definition TYPE_TO_LENGTH (k : kind) : Z :=
  match k with U8 => 1 | U32 => 4 | F32 => 4 end.

Definition py_str (t : pytype kind) : string :=
  match t with
  | TElementary U8 => "bytechomp.datatypes.U8"
  | TElementary U32 => "bytechomp.datatypes.U32"
  | TElementary F32 => "bytechomp.datatypes.F32"
  | TDataclass qn _ => "<class '" ++ qn ++ "'>"
  | TAnnotated _ _ => "typing.Annotated[...]"
  | TListOf _ => "list[...]"
  | TList => "<class 'list'>"
  | TBytes => "<class 'bytes'>"
  | TStr => "<class 'str'>"
  | TOther r => r
  end.

(** CPython 3.11 on a 64-bit platform, the kinds of the registry being
    [NewType] objects. *)
#[global] Instance interpreter : Interpreter kind := {|
  maxsize := 2 ^ 63 - 1;
  list_capacity := 2 ^ 32;
  int_max_str_digits := 4300;
  py_type_str := fun t =>
    match t with
    | TElementary _ => "<class 'typing.NewType'>"
    | TAnnotated _ _ => "<class 'typing._AnnotatedAlias'>"
    | TListOf _ => "<class 'types.GenericAlias'>"
    | _ => "<class 'type'>"
    end
|}.

Definition build := build_data_description TYPE_TO_PYTYPE TYPE_TO_TAG TYPE_TO_LENGTH py_str.
Definition compile := build_data_pattern (ELEMENTARY_TYPE := kind).
Definition pattern := pattern_of_type TYPE_TO_PYTYPE TYPE_TO_TAG TYPE_TO_LENGTH py_str.

Definition fld (n : string) (t : pytype kind) : field kind := mkField n t None.

(** [Point = {x: F32, y: F32}] *)
Definition Point : pytype kind :=
  TDataclass "Point" [fld "x" (TElementary F32); fld "y" (TElementary F32)].

(** [{a: U32, b: Annotated[str, 4], c: Annotated[list[U8], 3]}] *)
Definition message_b : field kind := fld "b" (TAnnotated TStr [PInt 4]).
Definition message_c : field kind :=
  fld "c" (TAnnotated (TListOf [TElementary U8]) [PInt 3]).
Definition Message : pytype kind :=
  TDataclass "Message" [fld "a" (TElementary U32); message_b; message_c].

(** [{inner: Point}] and [{points: Annotated[list[Point], 2]}] *)
Definition outer_inner : field kind := fld "inner" Point.
Definition Outer : pytype kind := TDataclass "Outer" [outer_inner].
Definition Pair : pytype kind :=
  TDataclass "Pair" [fld "points" (TAnnotated (TListOf [Point]) [PInt 2])].

(** [{a: U32 = 7, b: U8}] *)
Definition reading_a : field kind := mkField "a" (TElementary U32) (Some (PInt 7)).
Definition Reading : pytype kind :=
  TDataclass "Reading" [reading_a; fld "b" (TElementary U8)].

(** [{id: U8, start: Point, end: Point}] *)
Definition segment_start : field kind := fld "start" Point.
Definition Segment : pytype kind :=
  TDataclass "Segment" [fld "id" (TElementary U8); segment_start; fld "end" Point].

(** [{inner: Point = None}] *)
Definition holder_inner : field kind := mkField "inner" Point (Some PNone).
Definition Holder : pytype kind := TDataclass "Holder" [holder_inner].

(** [{a: U8, text: str}] *)
Definition bare_text : field kind := fld "text" TStr.
Definition Bare : pytype kind :=
  TDataclass "Bare" [fld "a" (TElementary U8); bare_text].

(** [{payload: Annotated[str, "4"]}] and [{payload: Annotated[str, 4, 8]}] *)
Definition Frame : pytype kind :=
  TDataclass "Frame" [fld "payload" (TAnnotated TStr [PStr "4"])].
Definition Frame3 : pytype kind :=
  TDataclass "Frame3" [fld "payload" (TAnnotated TStr [PInt 4; PInt 8])].

(** [{data: Annotated[bytes, 16] = b""}] *)
Definition blob_data : field kind :=
  mkField "data" (TAnnotated TBytes [PInt 16]) (Some (PBytes [])).
Definition Blob : pytype kind := TDataclass "Blob" [blob_data].

(** [{s: Annotated[str, 0]}] *)
Definition Blank : pytype kind :=
  TDataclass "Blank" [fld "s" (TAnnotated TStr [PInt 0])].

(** [{a: U8, points: Annotated[list[Point], -2], b: U8}] *)
Definition nopoints_points : field kind :=
  fld "points" (TAnnotated (TListOf [Point]) [PInt (-2)]).
Definition NoPoints : pytype kind :=
  TDataclass "NoPoints"
    [fld "a" (TElementary U8); nopoints_points; fld "b" (TElementary U8)].

(** [{__struct_type__: U8, b: U8}]: a field that uses the marker key. *)
Definition Shadow : pytype kind :=
  TDataclass "Shadow" [fld "__struct_type__" (TElementary U8); fld "b" (TElementary U8)].

(** Fields and dataclasses for the rejections and for nesting. *)
Definition pair_points : field kind :=
  fld "points" (TAnnotated (TListOf [Point]) [PInt 2]).
Definition crate_items : field kind :=
  fld "items" (TAnnotated (TListOf [Bare]) [PInt 0]).
Definition Crate : pytype kind := TDataclass "Crate" [crate_items].
Definition names_list : field kind :=
  fld "names" (TAnnotated (TListOf [TStr]) [PInt 2]).
Definition mixed_list : field kind :=
  fld "xs" (TAnnotated (TListOf [TElementary U8; TElementary U8]) [PInt 2]).
Definition sized_kind : field kind := fld "n" (TAnnotated (TElementary U8) [PInt 2]).
Definition plain_int : field kind := fld "n" py_int.
Definition flag_length : field kind := fld "s" (TAnnotated TStr [PBool true]).
Definition frame3_payload : field kind :=
  fld "payload" (TAnnotated TStr [PInt 4; PInt 8]).
Definition Wrap : pytype kind := TDataclass "Wrap" [fld "inner" Bare].

(** A description with a list inside a list, and one with a registry kind
    stored under a key. *)
Definition nested_lists : description kind := [("a", EList [EList []])].
Definition kind_under_key : description kind := [("a", EType (TElementary U8))].

(** [{items: Annotated[list[U8], -2**63 - 1]}] *)
Definition burst_items : field kind :=
  fld "items" (TAnnotated (TListOf [TElementary U8]) [PInt (- 2 ^ 63 - 1)]).
Definition Burst : pytype kind := TDataclass "Burst" [burst_items].

End Sample.

(** * Properties *)

Unset Implicit Arguments.

(** ** Strings and results *)

Lemma append_assoc (a b c : string) : (a ++ b) ++ c = a ++ (b ++ c).
Proof. induction a as [|x a IH]; simpl; [reflexivity | now rewrite IH]. Qed.

Lemma append_empty_r (a : string) : a ++ "" = a.
Proof. induction a as [|x a IH]; simpl; [reflexivity | now rewrite IH]. Qed.

Lemma append_nonempty_r (a b : string) : b <> "" -> a ++ b <> "".
Proof. destruct a; simpl; [trivial | discriminate]. Qed.

Lemma bind_Ok {A B} (r : result A) (k : A -> result B) (b : B) :
  bind r k = Ok b -> exists a, r = Ok a /\ k a = Ok b.
Proof. destruct r as [a|e]; simpl; [eauto | discriminate]. Qed.

Lemma is_ok_true {A} (r : result A) : is_ok r = true -> exists a, r = Ok a.
Proof. destruct r; simpl; [eauto | discriminate]. Qed.

Lemma existsb_eqb_false (k : string) (l : list string) :
  existsb (String.eqb k) l = false -> ~ In k l.
Proof.
  intros H Hin.
  assert (existsb (String.eqb k) l = true) as E
      by (apply existsb_exists; exists k; split; [assumption | apply String.eqb_refl]).
  congruence.
Qed.

Lemma nodupb_NoDup (l : list string) : nodupb l = true -> NoDup l.
Proof.
  induction l as [|x l IH]; simpl; intros H; [constructor|].
  apply andb_prop in H as [Hx Hl]. apply negb_true_iff in Hx.
  constructor; [now apply existsb_eqb_false | auto].
Qed.

(** ** Ordered dictionaries *)

Section OrderedDictFacts.
Variable V : Type.
Implicit Types (od : OrderedDict V) (k : string) (v : V).

Lemma od_get_set_same k v od : od_get k (od_set k v od) = Some v.
Proof.
  induction od as [|[k' v'] od IH]; simpl.
  - now rewrite String.eqb_refl.
  - destruct (String.eqb k' k) eqn:E; simpl.
    + now rewrite String.eqb_refl.
    + now rewrite E.
Qed.

Lemma od_get_set_other k k' v od :
  k <> k' -> od_get k' (od_set k v od) = od_get k' od.
Proof.
  intros Hne. induction od as [|[k0 v0] od IH]; simpl.
  - apply String.eqb_neq in Hne. now rewrite Hne.
  - destruct (String.eqb k0 k) eqn:E; simpl.
    + apply String.eqb_eq in E; subst k0.
      apply String.eqb_neq in Hne. now rewrite Hne.
    + now rewrite IH.
Qed.

Lemma od_set_fresh k v od :
  ~ In k (map fst od) -> od_set k v od = (od ++ [(k, v)])%list.
Proof.
  induction od as [|[k0 v0] od IH]; simpl; intros Hk; [reflexivity|].
  destruct (String.eqb k0 k) eqn:E.
  - apply String.eqb_eq in E. tauto.
  - rewrite IH; tauto.
Qed.

Lemma od_set_Forall (Q : string * V -> Prop) k v od :
  Q (k, v) -> Forall Q od -> Forall Q (od_set k v od).
Proof.
  intros Hq Hod. induction Hod as [|[k0 v0] od H0 Hod IH]; simpl.
  - repeat constructor; assumption.
  - destruct (String.eqb k0 k); constructor; assumption.
Qed.
End OrderedDictFacts.

(** ** The interpreter *)

Section InterpreterFacts.
Variable ELEMENTARY_TYPE : Type.
Context {interpreter : Interpreter ELEMENTARY_TYPE}.

Lemma list_mul_Ok {A} (x : A) (n : Z) (l : list A) :
  list_mul x n = Ok l -> l = repeat x (Z.to_nat n).
Proof.
  unfold list_mul.
  destruct (negb (index_sized n)); [discriminate|].
  destruct ((0 <? n) && (list_capacity <? n)); [discriminate|].
  intros H. now inversion H.
Qed.

Lemma list_mul_nonpositive {A} (x : A) (n : Z) :
  index_sized n = true -> n <= 0 -> list_mul x n = Ok [].
Proof.
  intros Hfit Hn. unfold list_mul. rewrite Hfit.
  assert ((0 <? n) = false) as -> by (apply Z.ltb_ge; lia).
  cbn [negb andb]. destruct n; try reflexivity. lia.
Qed.

Lemma list_mul_not_index_sized {A} (x : A) (n : Z) :
  index_sized n = false ->
  list_mul x n = Raise (OverflowError "cannot fit 'int' into an index-sized integer").
Proof. intros Hfit. unfold list_mul. now rewrite Hfit. Qed.

Lemma list_mul_not_Exception {A} (x : A) (n : Z) (msg : string) :
  list_mul x n <> Raise (Exception msg).
Proof.
  unfold list_mul.
  destruct (negb (index_sized n)); [discriminate|].
  destruct ((0 <? n) && (list_capacity <? n)); discriminate.
Qed.

Lemma format_int_not_Exception (n : Z) (msg : string) :
  format_int n <> Raise (Exception msg).
Proof.
  unfold format_int.
  destruct ((0 <? int_max_str_digits)
            && (int_max_str_digits
                <? Z.of_nat (String.length (str_of_int (Z.abs n)))));
    discriminate.
Qed.

Lemma format_int_Ok (n : Z) (s : string) :
  format_int n = Ok s -> s = str_of_int n.
Proof.
  unfold format_int.
  destruct ((0 <? int_max_str_digits)
            && (int_max_str_digits
                <? Z.of_nat (String.length (str_of_int (Z.abs n)))));
    [discriminate|].
  intros H. now inversion H.
Qed.
End InterpreterFacts.

(** ** Unfolding the embedding *)

Ltac unfold_field_element := unfold field_element.
Ltac unfold_field_element_in H := unfold field_element in H.
Ltac unfold_build := cbn [build_data_description].
Ltac unfold_build_in H := cbn [build_data_description] in H.
Ltac unfold_field_pattern := unfold field_pattern.
Ltac unfold_pattern_of_type := unfold pattern_of_type.

(** Case analysis on the tests of the loop body. *)
Ltac field_cases H :=
  unfold field_element in H;
  repeat match type of H with
    | context [match ?x with _ => _ end] =>
        let E := fresh "E" in destruct x eqn:E; try discriminate H
    end.

(** The results bound on the way to a stored entry. *)
Ltac field_results H :=
  repeat (let res := fresh "res" in
          let Hres := fresh "Hres" in
          apply bind_Ok in H as (res & Hres & H));
  repeat match goal with
    | Hm : list_mul _ _ = Ok _ |- _ => apply list_mul_Ok in Hm; subst
    | Hm : format_int _ = Ok _ |- _ => apply format_int_Ok in Hm; subst
    end;
  inversion H; subst; clear H.

Section RegistryFacts.

Variable ELEMENTARY_TYPE : Type.
Variable TYPE_TO_PYTYPE : ELEMENTARY_TYPE -> pytype ELEMENTARY_TYPE.
Variable TYPE_TO_TAG : ELEMENTARY_TYPE -> string.
Variable TYPE_TO_LENGTH : ELEMENTARY_TYPE -> Z.
Variable py_str : pytype ELEMENTARY_TYPE -> string.
Context {interpreter : Interpreter ELEMENTARY_TYPE}.

Local Notation pytype := (pytype ELEMENTARY_TYPE).
Local Notation field := (field ELEMENTARY_TYPE).
Local Notation element := (element ELEMENTARY_TYPE).
Local Notation description := (description ELEMENTARY_TYPE).
Local Notation field_element :=
  (field_element TYPE_TO_PYTYPE TYPE_TO_TAG TYPE_TO_LENGTH py_str).
Local Notation fields_loop :=
  (fields_loop TYPE_TO_PYTYPE TYPE_TO_TAG TYPE_TO_LENGTH py_str).
Local Notation build_data_description :=
  (build_data_description TYPE_TO_PYTYPE TYPE_TO_TAG TYPE_TO_LENGTH py_str).
Local Notation pattern_of_type :=
  (pattern_of_type TYPE_TO_PYTYPE TYPE_TO_TAG TYPE_TO_LENGTH py_str).
Local Notation field_pattern :=
  (field_pattern TYPE_TO_PYTYPE TYPE_TO_TAG TYPE_TO_LENGTH py_str).
Local Notation elementary_element :=
  (elementary_element TYPE_TO_PYTYPE TYPE_TO_TAG TYPE_TO_LENGTH).

(** *** Induction over type objects and over descriptions *)

Section PytypeInd.
Variable P : pytype -> Prop.
Hypothesis HElementary : forall k, P (TElementary k).
Hypothesis HDataclass :
  forall qn flds, Forall (fun f => P (type f)) flds -> P (TDataclass qn flds).
Hypothesis HAnnotated : forall a md, P a -> P (TAnnotated a md).
Hypothesis HListOf : forall args, Forall P args -> P (TListOf args).
Hypothesis HList : P TList.
Hypothesis HBytes : P TBytes.
Hypothesis HStr : P TStr.
Hypothesis HOther : forall r, P (TOther r).

Lemma pytype_nested_ind : forall t, P t.
Proof.
  fix IH 1. intros [k|qn flds|a md|args| | | |r].
  - apply HElementary.
  - apply HDataclass.
    induction flds as [|f flds IHflds]; constructor; [apply IH | exact IHflds].
  - apply HAnnotated, IH.
  - apply HListOf.
    induction args as [|x args IHargs]; constructor; [apply IH | exact IHargs].
  - exact HList.
  - exact HBytes.
  - exact HStr.
  - apply HOther.
Qed.
End PytypeInd.

Section ElementInd.
Variable P : element -> Prop.
Hypothesis HType : forall t, P (EType t).
Hypothesis HBasic : forall b, P (EBasic b).
Hypothesis HEList : forall l, Forall P l -> P (EList l).
Hypothesis HEDict : forall d, Forall (fun kv => P (snd kv)) d -> P (EDict d).

Lemma element_nested_ind : forall e, P e.
Proof.
  fix IH 1. intros [t|b|l|d].
  - apply HType.
  - apply HBasic.
  - apply HEList.
    induction l as [|x l IHl]; constructor; [apply IH | exact IHl].
  - apply HEDict.
    induction d as [|kv d IHd]; constructor; [apply IH | exact IHd].
Qed.
End ElementInd.

(** Induction along the recursive calls of [build_data_description]. *)
Lemma build_ind (Q : pytype -> Prop) :
  (forall qn flds,
      (forall f t, In f flds -> In t (rec_calls (type f)) -> Q t) ->
      Q (TDataclass qn flds)) ->
  forall qn flds, Q (TDataclass qn flds).
Proof.
  intros Hstep.
  pose (R := fun t : pytype => is_dataclass t = true -> Q t).
  assert (forall t, R t
                    /\ (forall lt, t = TListOf [lt] -> R lt)
                    /\ (forall lt md, t = TAnnotated (TListOf [lt]) md -> R lt)) as H.
  { induction t as [k|qn flds IH|a md IH|args IH| | | |r] using pytype_nested_ind;
      unfold R in *; (split; [|split]); try discriminate; intros.
    - apply Hstep. intros f t Hf Ht.
      rewrite Forall_forall in IH. specialize (IH f Hf).
      destruct IH as (IH1 & _ & IH3).
      destruct (type f) as [|qn' flds'|a md| | | | |] eqn:Et; simpl in Ht; try tauto.
      + destruct Ht as [<-|[]]. now apply IH1.
      + destruct a as [| | |[|[|qn' flds'| | | | | |] [|]]| | | |]; simpl in Ht; try tauto.
        destruct Ht as [<-|[]]. apply (IH3 _ _ eq_refl). reflexivity.
    - match goal with H : TAnnotated _ _ = TAnnotated _ _ |- _ => inversion H; subst end.
      destruct IH as (_ & IH2 & _). now apply (IH2 lt).
    - match goal with H : TListOf _ = TListOf _ |- _ => inversion H; subst end.
      inversion IH; subst. tauto.
  }
  intros qn flds. destruct (H (TDataclass qn flds)) as (H1 & _). now apply H1.
Qed.

(** *** The loop over the fields *)

Section FieldLoopFacts.
Variable rec : pytype -> result description.

Lemma fields_loop_keep flds : forall od od' k,
    fields_loop rec flds od = Ok od' ->
    ~ In k (map (@name _) flds) ->
    od_get k od' = od_get k od.
Proof.
  induction flds as [|g flds IH]; simpl; intros od od' k H Hk.
  - now inversion H.
  - apply bind_Ok in H as (e & _ & Hl).
    erewrite IH by (try eassumption; tauto).
    apply od_get_set_other. tauto.
Qed.

Lemma fields_loop_get flds : forall od od' f,
    NoDup (map (@name _) flds) ->
    fields_loop rec flds od = Ok od' ->
    In f flds ->
    exists e, field_element rec f = Ok e /\ od_get (name f) od' = Some e.
Proof.
  induction flds as [|g flds IH]; simpl; intros od od' f Hnd H Hin; [tauto|].
  inversion Hnd as [|? ? Hg Hnd']; subst.
  apply bind_Ok in H as (e & He & Hl).
  destruct Hin as [->|Hin].
  - exists e. split; [assumption|].
    erewrite fields_loop_keep by eassumption. apply od_get_set_same.
  - eapply IH; eassumption.
Qed.

Lemma fields_loop_raise pre f post od e :
  forallb (fun g => is_ok (field_element rec g)) pre = true ->
  field_element rec f = Raise e ->
  fields_loop rec (pre ++ f :: post)%list od = Raise e.
Proof.
  revert od. induction pre as [|g pre IH]; simpl; intros od Hpre Hf.
  - now rewrite Hf.
  - apply andb_prop in Hpre as [Hg Hpre].
    apply is_ok_true in Hg as (x & ->). simpl. now apply IH.
Qed.

(** A field the body rejects makes the loop fail, with the body's exception
    unless an earlier field was rejected first. *)
Lemma fields_loop_rejects pre f post e0 : forall od,
    field_element rec f = Raise e0 ->
    exists e,
      fields_loop rec (pre ++ f :: post)%list od = Raise e
      /\ (forallb (fun g => is_ok (field_element rec g)) pre = true -> e = e0).
Proof.
  induction pre as [|g pre IH]; simpl; intros od Hf.
  - rewrite Hf. simpl. eauto.
  - destruct (field_element rec g) as [x|eg]; simpl.
    + now apply IH.
    + exists eg. split; [reflexivity | discriminate].
Qed.

Lemma fields_loop_total flds : forall od,
    forallb (fun g => is_ok (field_element rec g)) flds = true ->
    exists od', fields_loop rec flds od = Ok od'.
Proof.
  induction flds as [|g flds IH]; simpl; intros od H; [eauto|].
  apply andb_prop in H as [Hg H].
  apply is_ok_true in Hg as (x & ->). simpl. now apply IH.
Qed.

Lemma fields_loop_Forall (Q : string * element -> Prop) flds : forall od od',
    (forall f e, In f flds -> field_element rec f = Ok e -> Q (name f, e)) ->
    Forall Q od ->
    fields_loop rec flds od = Ok od' ->
    Forall Q od'.
Proof.
  induction flds as [|g flds IH]; simpl; intros od od' HQ Hod H.
  - now inversion H; subst.
  - apply bind_Ok in H as (e & He & Hl).
    eapply IH; [| |exact Hl]; [eauto|].
    apply od_set_Forall; auto.
Qed.

(** With fresh, pairwise distinct names every assignment appends. *)
Lemma fields_loop_entries flds : forall od od',
    NoDup (map fst od ++ map (@name _) flds)%list ->
    fields_loop rec flds od = Ok od' ->
    exists es,
      Forall2 (fun f e => field_element rec f = Ok e) flds es
      /\ od' = (od ++ combine (map (@name _) flds) es)%list.
Proof.
  induction flds as [|g flds IH]; simpl; intros od od' Hnd H.
  - inversion H; subst. exists []. split; [constructor|]. now rewrite app_nil_r.
  - apply bind_Ok in H as (e & He & Hl).
    assert (~ In (name g) (map fst od)) as Hfresh.
    { intros Hin. apply NoDup_remove_2 in Hnd. apply Hnd.
      apply in_or_app. now left. }
    rewrite od_set_fresh in Hl by exact Hfresh.
    apply IH in Hl as (es & Hes & ->).
    + exists (e :: es). split; [now constructor|].
      now rewrite <- app_assoc.
    + rewrite map_app. simpl. rewrite <- app_assoc. simpl.
      apply NoDup_remove_1 in Hnd as Hnd'.
      apply NoDup_remove_2 in Hnd.
      apply NoDup_app_remove_l in Hnd' as Hf.
      clear - Hnd Hnd' Hfresh.
      induction (map fst od) as [|x l IHl]; simpl in *.
      * constructor; [tauto|assumption].
      * inversion Hnd' as [|? ? Hx Hl']; subst. constructor.
        -- intros Hin. apply Hx. apply in_app_or in Hin as [Hin|[<-|Hin]].
           ++ apply in_or_app; now left.
           ++ tauto.
           ++ apply in_or_app; now right.
        -- apply IHl; tauto.
Qed.
End FieldLoopFacts.

(** *** The loops of the pattern compiler *)

Lemma concat_cons (x : string) (xs : list string) :
  String.concat "" (x :: xs) = x ++ String.concat "" xs.
Proof. destruct xs; simpl; [now rewrite append_empty_r | reflexivity]. Qed.

Lemma forallb_repeat {A} (p : A -> bool) (x : A) (n : nat) :
  p x = true -> forallb p (repeat x n) = true.
Proof. intros Hx. induction n; simpl; [reflexivity | now rewrite Hx]. Qed.

Section PatternFacts.
Variable rec : element -> result string.

(** The accumulated pattern is only ever extended on the right. *)
Lemma sub_elements_loop_acc nm subs : forall acc,
    sub_elements_loop rec nm subs acc
    = s <- sub_elements_loop rec nm subs "" ;; Ok (acc ++ s).
Proof.
  induction subs as [|x subs IH]; simpl; intros acc.
  - now rewrite append_empty_r.
  - destruct x as [t|b|l|d]; try reflexivity.
    + rewrite IH, (IH (parser_tag b)).
      destruct (sub_elements_loop rec nm subs ""); simpl;
        [now rewrite append_assoc | reflexivity].
    + destruct (rec (EDict d)) as [s|]; simpl; [|reflexivity].
      rewrite IH, (IH s).
      destruct (sub_elements_loop rec nm subs ""); simpl;
        [now rewrite append_assoc | reflexivity].
Qed.

Lemma root_element_pattern_acc nm e acc :
  root_element_pattern rec nm e acc
  = s <- root_element_pattern rec nm e "" ;; Ok (acc ++ s).
Proof.
  destruct e as [t|b|l|d]; simpl; try reflexivity.
  - apply sub_elements_loop_acc.
  - destruct (rec (EDict d)); reflexivity.
Qed.

Lemma items_loop_acc items : forall acc,
    items_loop rec items acc = s <- items_loop rec items "" ;; Ok (acc ++ s).
Proof.
  induction items as [|[nm e] items IH]; simpl; intros acc.
  - now rewrite append_empty_r.
  - destruct (String.eqb nm STRUCT_TYPE); [apply IH|].
    rewrite root_element_pattern_acc.
    destruct (root_element_pattern rec nm e "") as [s|]; simpl; [|reflexivity].
    rewrite IH, (IH s).
    destruct (items_loop rec items ""); simpl;
      [now rewrite append_assoc | reflexivity].
Qed.

(** Compiling is a homomorphism from the concatenation of entries. *)
Lemma items_loop_app l1 l2 : forall acc,
    items_loop rec (l1 ++ l2)%list acc
    = p <- items_loop rec l1 acc ;; items_loop rec l2 p.
Proof.
  induction l1 as [|[nm e] l1 IH]; simpl; intros acc; [reflexivity|].
  destruct (String.eqb nm STRUCT_TYPE); [apply IH|].
  destruct (root_element_pattern rec nm e acc); simpl; [apply IH | reflexivity].
Qed.

Lemma sub_elements_loop_repeat_basic nm b n : forall acc,
    sub_elements_loop rec nm (repeat (EBasic b) n) acc
    = Ok (acc ++ String.concat "" (repeat (parser_tag b) n)).
Proof.
  induction n as [|n IH]; intros acc.
  - simpl. now rewrite append_empty_r.
  - cbn [repeat sub_elements_loop]. rewrite IH, concat_cons.
    now rewrite append_assoc.
Qed.

Lemma sub_elements_loop_repeat_dict nm d s n : forall acc,
    rec (EDict d) = Ok s ->
    sub_elements_loop rec nm (repeat (EDict d) n) acc
    = Ok (acc ++ String.concat "" (repeat s n)).
Proof.
  intros acc Hd. revert acc. induction n as [|n IH]; intros acc.
  - simpl. now rewrite append_empty_r.
  - cbn [repeat sub_elements_loop]. rewrite Hd. simpl bind.
    rewrite IH, concat_cons. now rewrite append_assoc.
Qed.
End PatternFacts.

Lemma dict_pattern_EDict (d : description) :
  dict_pattern (EDict d) = build_data_pattern d.
Proof. reflexivity. Qed.

Lemma compilable_EDict (d : description) :
  compilable (EDict d) = true <->
  Forall (fun kv => fst kv = STRUCT_TYPE \/ compilable (snd kv) = true) d.
Proof.
  change (compilable (EDict d))
    with (forallb (fun kv => String.eqb (fst kv) STRUCT_TYPE || compilable (snd kv)) d).
  rewrite forallb_forall, Forall_forall.
  split; intros H kv Hin; specialize (H kv Hin).
  - apply orb_prop in H as [H|H]; [left; now apply String.eqb_eq | now right].
  - destruct H as [H|H]; [apply String.eqb_eq in H; now rewrite H | rewrite H; apply orb_true_r].
Qed.

(** The compiler returns a pattern on every compilable entry. *)
Lemma compilable_pattern (e : element) :
  compilable e = true ->
  forall nm, exists s, root_element_pattern dict_pattern nm e "" = Ok s.
Proof.
  induction e as [t|b|l IH|d IH] using element_nested_ind; intros Hc nm.
  - discriminate.
  - simpl. eauto.
  - cbn [root_element_pattern]. simpl in Hc. generalize "" as acc.
    induction IH as [|x l Hx _ IHl]; intros acc; [simpl; eauto|].
    simpl in Hc. apply andb_prop in Hc as [Hcx Hcl].
    destruct x as [t|b|l'|d]; try discriminate; cbn [sub_elements_loop].
    + now apply IHl.
    + destruct (Hx Hcx nm) as (s & Hs).
      apply bind_Ok in Hs as (s' & -> & _). cbn [bind]. now apply IHl.
  - cbn [root_element_pattern].
    cut (exists s, dict_pattern (EDict d) = Ok s).
    { intros (s & ->). cbn [bind]. eauto. }
    rewrite dict_pattern_EDict. unfold build_data_pattern.
    apply compilable_EDict in Hc. generalize "" as acc.
    induction IH as [|[k x] l Hx _ IHl]; intros acc; [simpl; eauto|].
    inversion Hc as [|? ? Hkx Hcl]; subst. cbn [fst snd] in Hkx, Hx.
    cbn [items_loop].
    destruct (String.eqb k STRUCT_TYPE) eqn:Ek; [now apply IHl|].
    destruct Hkx as [->|Hcx]; [now rewrite String.eqb_refl in Ek|].
    rewrite root_element_pattern_acc.
    destruct (Hx Hcx k) as (s & ->). cbn [bind]. now apply IHl.
Qed.

Lemma compilable_build_data_pattern (d : description) :
  compilable (EDict d) = true -> exists s, build_data_pattern d = Ok s.
Proof.
  intros Hc. destruct (compilable_pattern _ Hc "") as (s & Hs).
  apply bind_Ok in Hs as (s' & Hs' & _). rewrite dict_pattern_EDict in Hs'. eauto.
Qed.

(** *** What the builder stores *)

Lemma field_element_compilable rec (f : field) (e : element) :
  (forall t d, In t (rec_calls (type f)) -> rec t = Ok d -> compilable (EDict d) = true) ->
  field_element rec f = Ok e ->
  compilable e = true.
Proof.
  intros Hrec H. field_cases H; field_results H; try reflexivity.
  - eapply Hrec; [|eassumption]. simpl. now left.
  - simpl. now apply forallb_repeat.
  - simpl. apply forallb_repeat.
    eapply Hrec; [|eassumption]. simpl. now left.
Qed.

Lemma build_compilable qn flds (d : description) :
  build_data_description (TDataclass qn flds) = Ok d ->
  compilable (EDict d) = true.
Proof.
  revert d. pattern (TDataclass qn flds). apply build_ind. clear qn flds.
  intros qn flds IH d Hd. unfold_build_in Hd.
  apply compilable_EDict.
  eapply fields_loop_Forall; [| |exact Hd].
  - intros f e Hf He. right. cbn [snd].
    eapply field_element_compilable; [|exact He].
    intros t d' Ht Hd'. eapply IH; eassumption.
  - constructor; [now left | constructor].
Qed.

(** The compiler never fails on what the builder returns. *)
Lemma build_data_pattern_total (datatype : pytype) (d : description) :
  build_data_description datatype = Ok d -> exists p, build_data_pattern d = Ok p.
Proof.
  destruct datatype; try discriminate. intros Hd.
  apply compilable_build_data_pattern. eapply build_compilable; eassumption.
Qed.

Lemma build_field_lookup qn flds (d : description) (f : field) :
  nodupb (map (@name _) flds) = true ->
  In f flds ->
  build_data_description (TDataclass qn flds) = Ok d ->
  exists e, field_element build_data_description f = Ok e
            /\ od_get (name f) d = Some e.
Proof.
  intros Hnd Hin Hd. unfold_build_in Hd.
  eapply fields_loop_get; eauto using nodupb_NoDup.
Qed.

Lemma build_field_raise qn pre (f : field) post e :
  forallb (fun g => is_ok (field_element build_data_description g)) pre = true ->
  field_element build_data_description f = Raise e ->
  build_data_description (TDataclass qn (pre ++ f :: post)%list) = Raise e.
Proof.
  intros Hpre Hf. unfold_build.
  now apply fields_loop_raise.
Qed.

(** ** The claims *)

(** C1. A field whose declared type is an elementary kind is described by a
    [BasicParsingElement] whose python type, parser tag and length are the
    registry's entries for that kind, and whose default value is the declared
    default of the field, [None] when the field declares none. *)
Theorem build_elementary_field qn flds (d : description) (f : field) k :
  nodupb (map (@name _) flds) = true ->
  In f flds ->
  type f = TElementary k ->
  build_data_description (TDataclass qn flds) = Ok d ->
  od_get (name f) d
  = Some (EBasic {| parsing_type := TElementary k;
                    python_type := TYPE_TO_PYTYPE k;
                    parser_tag := TYPE_TO_TAG k;
                    length := TYPE_TO_LENGTH k;
                    default_value := match default f with
                                     | Some v => v
                                     | None => PNone
                                     end;
                    raw_data := [];
                    parsed_value := PNone |}).
Proof.
  intros Hnd Hin Ht Hd.
  destruct (build_field_lookup qn flds d f Hnd Hin Hd) as (e & He & ->).
  unfold_field_element_in He. rewrite Ht in He.
  now inversion He.
Qed.

(** C3. A field declared as [Annotated[list[K], N]] with [K] elementary is
    described by a list of [N] elements, each the [BasicParsingElement] of
    [K] from the registry with no default value, and the compiler extends the
    pattern by the tag of [K] written [N] times. *)
Theorem build_repeated_elementary_field qn flds (d : description) (f : field) k n :
  nodupb (map (@name _) flds) = true ->
  In f flds ->
  type f = TAnnotated (TListOf [TElementary k]) [PInt n] ->
  build_data_description (TDataclass qn flds) = Ok d ->
  od_get (name f) d
  = Some (EList (repeat (EBasic {| parsing_type := TElementary k;
                                   python_type := TYPE_TO_PYTYPE k;
                                   parser_tag := TYPE_TO_TAG k;
                                   length := TYPE_TO_LENGTH k;
                                   default_value := PNone;
                                   raw_data := [];
                                   parsed_value := PNone |})
                        (Z.to_nat n)))
  /\ (forall pattern,
         root_element_pattern dict_pattern (name f)
           (EList (repeat (EBasic (elementary_element (TElementary k) k PNone))
                          (Z.to_nat n)))
           pattern
         = Ok (pattern ++ String.concat "" (repeat (TYPE_TO_TAG k) (Z.to_nat n))))
  /\ field_pattern f = Ok (String.concat "" (repeat (TYPE_TO_TAG k) (Z.to_nat n))).
Proof.
  intros Hnd Hin Ht Hd.
  destruct (build_field_lookup qn flds d f Hnd Hin Hd) as (e & He & ->).
  assert (forall pattern,
             root_element_pattern dict_pattern (name f)
               (EList (repeat (EBasic (elementary_element (TElementary k) k PNone))
                              (Z.to_nat n)))
               pattern
             = Ok (pattern ++ String.concat "" (repeat (TYPE_TO_TAG k) (Z.to_nat n))))
    as Hpat.
  { intros pattern. cbn [root_element_pattern].
    now rewrite sub_elements_loop_repeat_basic. }
  unfold_field_pattern. rewrite He.
  unfold_field_element_in He. rewrite Ht in He. cbv beta iota in He.
  field_results He. repeat split; [exact Hpat|].
  cbn [bind]. now rewrite Hpat.
Qed.

(** C4. A field declared as [Annotated[str, L]] is described by a
    [BasicParsingElement] with tag [str(L) + "s"], length [L] and python type
    [str]; one declared as [Annotated[bytes, L]] by a [BasicParsingElement]
    with tag [str(L) + "p"], length [L] and python type [bytes]. *)
Theorem build_sized_text_field qn flds (d : description) (f : field) len :
  nodupb (map (@name _) flds) = true ->
  In f flds ->
  build_data_description (TDataclass qn flds) = Ok d ->
  (type f = TAnnotated TStr [PInt len] ->
   od_get (name f) d
   = Some (EBasic {| parsing_type := TStr;
                     python_type := TStr;
                     parser_tag := str_of_int len ++ "s";
                     length := len;
                     default_value := default_or_None f;
                     raw_data := [];
                     parsed_value := PNone |}))
  /\ (type f = TAnnotated TBytes [PInt len] ->
      od_get (name f) d
      = Some (EBasic {| parsing_type := TBytes;
                        python_type := TBytes;
                        parser_tag := str_of_int len ++ "p";
                        length := len;
                        default_value := default_or_None f;
                        raw_data := [];
                        parsed_value := PNone |})).
Proof.
  intros Hnd Hin Hd.
  destruct (build_field_lookup qn flds d f Hnd Hin Hd) as (e & He & ->).
  unfold_field_element_in He.
  split; intros Ht; rewrite Ht in He; cbv beta iota in He; field_results He;
    reflexivity.
Qed.

(** C5. A field whose declared type is a dataclass and which declares a
    default always makes the builder raise, with the message "cannot have
    default value on nested types (field: <name>)" unless an earlier field was
    rejected first.  When the field declares no default the builder recurses
    on the nested type: a failure of the recursive call is the failure of the
    whole build, its result is stored under the name of the field. *)
Theorem build_nested_field qn pre (f : field) post nqn nflds :
  type f = TDataclass nqn nflds ->
  match default f with
  | Some _ =>
      exists e,
        build_data_description (TDataclass qn (pre ++ f :: post)%list) = Raise e
        /\ (forallb (fun g => is_ok (field_element build_data_description g)) pre = true ->
            e = Exception ("cannot have default value on nested types (field: "
                           ++ name f ++ ")"))
  | None =>
      forallb (fun g => is_ok (field_element build_data_description g)) pre = true ->
      nodupb (map (@name _) (pre ++ f :: post)%list) = true ->
      match build_data_description (type f) with
      | Raise e =>
          build_data_description (TDataclass qn (pre ++ f :: post)%list) = Raise e
      | Ok sub =>
          forall d,
            build_data_description (TDataclass qn (pre ++ f :: post)%list) = Ok d ->
            od_get (name f) d = Some (EDict sub)
      end
  end.
Proof.
  intros Ht.
  assert (field_element build_data_description f
          = match default f with
            | Some _ =>
                Raise (Exception ("cannot have default value on nested types (field: "
                                  ++ name f ++ ")"))
            | None => sub <- build_data_description (type f) ;; Ok (EDict sub)
            end) as Hf
      by (unfold_field_element; now rewrite Ht).
  destruct (default f) as [v|].
  - unfold_build. now apply fields_loop_rejects.
  - intros Hpre Hnd.
    destruct (build_data_description (type f)) as [sub|e] eqn:Hsub.
    + intros d Hd.
      destruct (build_field_lookup qn _ d f Hnd (in_elt f pre post) Hd)
        as (e & He & ->).
      rewrite Hf in He. now inversion He.
    + now apply build_field_raise.
Qed.

(** C6. A field whose declared type is the bare [list], [bytes] or [str]
    always makes the builder raise; unless an earlier field was rejected
    first, the message says that an unannotated list, string or bytes type is
    not allowed, that a length is required, and which field it is. *)
Theorem build_unannotated_field qn pre (f : field) post :
  type f = TList \/ type f = TBytes \/ type f = TStr ->
  exists e,
    build_data_description (TDataclass qn (pre ++ f :: post)%list) = Raise e
    /\ (forallb (fun g => is_ok (field_element build_data_description g)) pre = true ->
        e = Exception
              ("cannot have unannotated list, string, or bytes type (length required, field: "
               ++ name f ++ ")")).
Proof.
  intros Ht. unfold_build. apply fields_loop_rejects.
  unfold_field_element.
  destruct Ht as [->|[->| ->]]; reflexivity.
Qed.

(** The two rejections of a malformed [Annotated] type.  With other than two
    arguments the message ends with the name of the field. *)
Lemma annotated_argument_count rec (f : field) arg_type metadata :
  type f = TAnnotated arg_type metadata ->
  List.length metadata <> 1%nat ->
  field_element rec f
  = Raise (Exception ("annotated value should only have two arguments (field: "
                      ++ name f ++ ")")).
Proof.
  intros Ht Hlen. unfold_field_element. rewrite Ht.
  destruct metadata as [|m [|m' rest]]; simpl in Hlen; congruence.
Qed.

(** With a second argument that is not an [int] the message is one fixed
    string, whatever the field is called. *)
Lemma annotated_length_not_int rec (f : field) arg_type len :
  type f = TAnnotated arg_type [len] ->
  is_int len = false ->
  field_element rec f
  = Raise (Exception "second annotated argument must be an integer to denote length").
Proof.
  intros Ht Hlen. unfold_field_element. rewrite Ht.
  destruct len; simpl in Hlen; try discriminate; reflexivity.
Qed.

(** C8. Whenever the builder succeeds on a type, building and compiling
    returns a pattern, and any two runs of the builder followed by the
    compiler on that type return the same pattern. *)
Theorem pattern_of_type_deterministic (datatype : pytype) (d : description) :
  build_data_description datatype = Ok d ->
  exists p,
    pattern_of_type datatype = Ok p
    /\ forall d1 d2 p1 p2,
        build_data_description datatype = Ok d1 ->
        build_data_pattern d1 = Ok p1 ->
        build_data_description datatype = Ok d2 ->
        build_data_pattern d2 = Ok p2 ->
        p1 = p /\ p2 = p.
Proof.
  intros Hd. destruct (build_data_pattern_total datatype d Hd) as (p & Hp).
  exists p. split.
  - unfold_pattern_of_type. rewrite Hd. exact Hp.
  - intros d1 d2 p1 p2 H1 Hp1 H2 Hp2.
    rewrite Hd in H1, H2. inversion H1; inversion H2; subst.
    rewrite Hp in Hp1, Hp2. split; congruence.
Qed.

(** C2. For a dataclass whose field names are pairwise distinct and do not
    use the marker key, the pattern compiled from its description is the
    concatenation, in the order of declaration, of what each field
    contributes; a field whose type is a nested dataclass contributes exactly
    the pattern compiled from the description of that dataclass. *)
Theorem build_data_pattern_concat qn flds (d : description) :
  field_names_ok flds = true ->
  build_data_description (TDataclass qn flds) = Ok d ->
  exists ps,
    Forall2 (fun f s =>
               field_pattern f = Ok s
               /\ (is_dataclass (type f) = true -> pattern_of_type (type f) = Ok s))
            flds ps
    /\ build_data_pattern d = Ok (String.concat "" ps).
Proof.
  intros Hnames Hd. unfold_build_in Hd.
  unfold field_names_ok in Hnames. apply andb_prop in Hnames as [Hnd Hmark].
  apply negb_true_iff, existsb_eqb_false in Hmark.
  apply fields_loop_entries in Hd as (es & Hes & ->);
    [|simpl; constructor; [assumption | now apply nodupb_NoDup]].
  assert (forall f, In f flds -> name f <> STRUCT_TYPE) as Hne
      by (intros f Hf E; apply Hmark; rewrite <- E; now apply in_map).
  clear Hnd Hmark.
  cut (exists ps,
          Forall2 (fun f s =>
                     field_pattern f = Ok s
                     /\ (is_dataclass (type f) = true -> pattern_of_type (type f) = Ok s))
                  flds ps
          /\ forall acc,
              items_loop dict_pattern (combine (map (@name _) flds) es) acc
              = Ok (acc ++ String.concat "" ps)).
  { intros (ps & Hps & Hloop). exists ps. split; [assumption|].
    unfold build_data_pattern. simpl. apply (Hloop ""). }
  induction Hes as [|f e flds es He Hes IH].
  - exists []. split; [constructor | intros acc; simpl; now rewrite append_empty_r].
  - destruct IH as (ps & Hps & Hloop); [intros g Hg; apply Hne; now right|].
    assert (compilable e = true) as Hc.
    { eapply field_element_compilable; [|exact He].
      intros t d' _ Hd'. destruct t; try discriminate.
      eapply build_compilable; eassumption. }
    destruct (compilable_pattern e Hc (name f)) as (s & Hs).
    exists (s :: ps). split; [constructor; [split|assumption]|].
    + unfold_field_pattern. now rewrite He.
    + intros Hdc. unfold_pattern_of_type.
      unfold_field_element_in He.
      destruct (type f) as [|nqn nflds| | | | | |]; try discriminate.
      destruct (default f); [discriminate|].
      apply bind_Ok in He as (sub & Hsub & He). inversion He; subst e.
      rewrite Hsub. cbn [bind].
      apply bind_Ok in Hs as (s' & Hs' & Hs). rewrite dict_pattern_EDict in Hs'.
      rewrite Hs'. exact Hs.
    + intros acc. cbn [map combine items_loop].
      assert (String.eqb (name f) STRUCT_TYPE = false) as ->
          by (apply String.eqb_neq, Hne; now left).
      rewrite root_element_pattern_acc, Hs. cbn [bind].
      now rewrite Hloop, concat_cons, append_assoc.
Qed.

(** Every [BasicParsingElement] of a built description comes from the
    registry or from a sized declaration of the type. *)
Lemma leaf_origin_incl decls decls' b :
  incl decls decls' ->
  leaf_origin TYPE_TO_TAG TYPE_TO_LENGTH decls b ->
  leaf_origin TYPE_TO_TAG TYPE_TO_LENGTH decls' b.
Proof.
  unfold leaf_origin. intros Hincl H.
  destruct (parsing_type b); try exact H; destruct H as [Hin Htag]; auto.
Qed.

Lemma field_element_origin rec (f : field) (e : element) :
  (forall t d, In t (rec_calls (type f)) -> rec t = Ok d ->
               Forall (leaf_origin TYPE_TO_TAG TYPE_TO_LENGTH (declared_lengths t))
                      (leaves d)) ->
  field_element rec f = Ok e ->
  Forall (leaf_origin TYPE_TO_TAG TYPE_TO_LENGTH (declared_lengths (type f)))
         (element_leaves e).
Proof.
  intros Hrec H. field_cases H; field_results H.
  - repeat constructor.
  - eapply Hrec; [simpl; now left | eassumption].
  - cbn [element_leaves]. apply Forall_flat_map, Forall_forall.
    intros x Hx. apply repeat_spec in Hx; subst x. repeat constructor.
  - cbn [element_leaves]. apply Forall_flat_map, Forall_forall.
    intros x Hx. apply repeat_spec in Hx; subst x.
    eapply (Hrec (TDataclass _ _)); [simpl; now left | eassumption].
  - repeat constructor.
  - repeat constructor.
Qed.

Lemma built_origin qn flds (d : description) :
  build_data_description (TDataclass qn flds) = Ok d ->
  Forall (leaf_origin TYPE_TO_TAG TYPE_TO_LENGTH
                      (declared_lengths (TDataclass qn flds)))
         (leaves d).
Proof.
  revert d. pattern (TDataclass qn flds). apply build_ind. clear qn flds.
  intros qn flds IH d Hd. unfold_build_in Hd.
  unfold leaves. apply Forall_flat_map.
  eapply fields_loop_Forall; [| |exact Hd].
  - intros f e Hf He. cbn [snd].
    eapply Forall_impl; [|eapply field_element_origin; [|exact He]].
    + intros b. apply leaf_origin_incl.
      intros x Hx. cbn [declared_lengths]. apply in_flat_map. eauto.
    + intros t d' Ht Hd'. eapply IH; eassumption.
  - repeat constructor.
Qed.

(** C9, as the code has it.  A [BasicParsingElement] of a built description
    that is of an elementary kind has the registry's tag and length for that
    kind; one for a sized string or byte blob has as its length the integer
    [L] of a field declared [Annotated[str, L]] or [Annotated[bytes, L]],
    whatever the sign of [L], and [L] followed by ["s"] or ["p"] as its tag.
    So the tag is non-empty as soon as the registry's tags are, and the
    length of an elementary leaf is positive as soon as the registry's
    lengths are. *)
Theorem built_leaf_invariant (datatype : pytype) (d : description) b :
  build_data_description datatype = Ok d ->
  In b (leaves d) ->
  match parsing_type b with
  | TElementary k => parser_tag b = TYPE_TO_TAG k /\ length b = TYPE_TO_LENGTH k
  | TStr =>
      In (TStr, length b) (declared_lengths datatype)
      /\ parser_tag b = str_of_int (length b) ++ "s"
  | TBytes =>
      In (TBytes, length b) (declared_lengths datatype)
      /\ parser_tag b = str_of_int (length b) ++ "p"
  | _ => False
  end
  /\ ((forall k, TYPE_TO_TAG k <> "") -> parser_tag b <> "")
  /\ ((forall k, 0 < TYPE_TO_LENGTH k) ->
      is_elementary (parsing_type b) = true -> 0 < length b).
Proof.
  intros Hd Hb.
  destruct datatype as [|qn flds| | | | | |]; try discriminate.
  pose proof (built_origin qn flds d Hd) as H.
  rewrite Forall_forall in H. specialize (H b Hb). unfold leaf_origin in H.
  split; [exact H|].
  destruct (parsing_type b) as [k| | | | | | |]; try contradiction.
  - destruct H as [Ht Hl]. rewrite Ht, Hl. split; auto.
  - destruct H as [_ Ht]. rewrite Ht.
    split; [intros _; now apply append_nonempty_r | discriminate].
  - destruct H as [_ Ht]. rewrite Ht.
    split; [intros _; now apply append_nonempty_r | discriminate].
Qed.

(** C10, as the code has it.  A fixed-size list field whose count is zero or
    negative and fits an index-sized integer is not rejected: when the
    element type is elementary, or a dataclass that itself builds, and the
    other fields build, the build succeeds, the field is described by the
    empty list, and the field adds nothing to the pattern. *)
Theorem build_nonpositive_count qn pre (f : field) post list_type n :
  type f = TAnnotated (TListOf [list_type]) [PInt n] ->
  n <= 0 ->
  index_sized n = true ->
  is_elementary list_type
  || (is_dataclass list_type && is_ok (build_data_description list_type)) = true ->
  nodupb (map (@name _) (pre ++ f :: post)%list) = true ->
  forallb (fun g => is_ok (field_element build_data_description g)) pre = true ->
  forallb (fun g => is_ok (field_element build_data_description g)) post = true ->
  exists d,
    build_data_description (TDataclass qn (pre ++ f :: post)%list) = Ok d
    /\ od_get (name f) d = Some (EList [])
    /\ field_pattern f = Ok ""
    /\ forall pattern,
        root_element_pattern dict_pattern (name f) (EList (@nil element)) pattern
        = Ok pattern.
Proof.
  intros Ht Hn Hfit Hlt Hnd Hpre Hpost.
  assert (field_element build_data_description f = Ok (EList [])) as Hf.
  { unfold_field_element. rewrite Ht. cbv beta iota.
    destruct list_type; try discriminate.
    - now rewrite list_mul_nonpositive by assumption.
    - cbn [is_elementary is_dataclass orb andb] in Hlt.
      apply is_ok_true in Hlt as (sub & ->). cbn [bind].
      now rewrite list_mul_nonpositive by assumption. }
  destruct (fields_loop_total build_data_description (pre ++ f :: post)%list
              [(STRUCT_TYPE, EType (TDataclass qn (pre ++ f :: post)%list))])
    as (d & Hd).
  { rewrite forallb_app. cbn [forallb]. now rewrite Hpre, Hpost, Hf. }
  exists d. split; [exact Hd|].
  destruct (build_field_lookup qn _ d f Hnd (in_elt f pre post) Hd) as (e & He & ->).
  rewrite Hf in He. inversion He; subst e.
  repeat split. unfold_field_pattern. now rewrite Hf.
Qed.

(** A count that is not an index-sized integer makes the list multiplication
    raise [OverflowError], whatever its sign. *)
Lemma build_count_not_index_sized qn pre (f : field) post k n :
  type f = TAnnotated (TListOf [TElementary k]) [PInt n] ->
  index_sized n = false ->
  forallb (fun g => is_ok (field_element build_data_description g)) pre = true ->
  build_data_description (TDataclass qn (pre ++ f :: post)%list)
  = Raise (OverflowError "cannot fit 'int' into an index-sized integer").
Proof.
  intros Ht Hfit Hpre. apply build_field_raise; [assumption|].
  unfold_field_element. rewrite Ht. cbv beta iota.
  now rewrite list_mul_not_index_sized by assumption.
Qed.

(** ** Further properties of the builder *)

Local Notation body_ok :=
  (fun g : field => is_ok (field_element build_data_description g)).

Lemma build_rejects qn pre (f : field) post e0 :
  field_element build_data_description f = Raise e0 ->
  exists e,
    build_data_description (TDataclass qn (pre ++ f :: post)%list) = Raise e
    /\ (forallb body_ok pre = true -> e = e0).
Proof. intros Hf. unfold_build. now apply fields_loop_rejects. Qed.

(** X1. A field declared as [Annotated[list[D], N]] with [D] a dataclass is
    described by a list of [N] copies of the description of [D], and adds the
    pattern of [D] written [N] times. *)
Theorem build_repeated_nested_field qn flds (d : description) (f : field)
        lqn lflds n :
  nodupb (map (@name _) flds) = true ->
  In f flds ->
  type f = TAnnotated (TListOf [TDataclass lqn lflds]) [PInt n] ->
  build_data_description (TDataclass qn flds) = Ok d ->
  exists sub s,
    build_data_description (TDataclass lqn lflds) = Ok sub
    /\ build_data_pattern sub = Ok s
    /\ od_get (name f) d = Some (EList (repeat (EDict sub) (Z.to_nat n)))
    /\ field_pattern f = Ok (String.concat "" (repeat s (Z.to_nat n))).
Proof.
  intros Hnd Hin Ht Hd.
  destruct (build_field_lookup qn flds d f Hnd Hin Hd) as (e & He & Hget).
  pose proof He as He'. unfold_field_element_in He'. rewrite Ht in He'.
  cbv beta iota in He'.
  apply bind_Ok in He' as (sub & Hsub & He'). field_results He'.
  destruct (build_data_pattern_total _ sub Hsub) as (s & Hs).
  exists sub, s. repeat split; try assumption.
  unfold_field_pattern. rewrite He. cbn [bind root_element_pattern].
  now rewrite (sub_elements_loop_repeat_dict dict_pattern (name f) sub s
                 (Z.to_nat n) "" Hs).
Qed.

(** X2. The description of the element type of [Annotated[list[D], N]] is
    built before the list is: when building [D] fails the build fails with
    that exception, whatever the count, zero and negative counts included. *)
Theorem build_repeated_nested_failure qn pre (f : field) post list_type n e0 :
  type f = TAnnotated (TListOf [list_type]) [PInt n] ->
  is_dataclass list_type = true ->
  build_data_description list_type = Raise e0 ->
  exists e,
    build_data_description (TDataclass qn (pre ++ f :: post)%list) = Raise e
    /\ (forallb body_ok pre = true -> e = e0).
Proof.
  intros Ht Hdc Hlt. apply build_rejects.
  unfold_field_element. rewrite Ht.
  destruct list_type; try discriminate. cbv beta iota. now rewrite Hlt.
Qed.

(** X3. A list whose element type is neither elementary nor a dataclass is
    rejected with "unsupported list type: <type> (field: <name>)". *)
Theorem build_unsupported_list_type qn pre (f : field) post list_type n :
  type f = TAnnotated (TListOf [list_type]) [PInt n] ->
  is_elementary list_type = false ->
  is_dataclass list_type = false ->
  exists e,
    build_data_description (TDataclass qn (pre ++ f :: post)%list) = Raise e
    /\ (forallb body_ok pre = true ->
        e = Exception ("unsupported list type: " ++ py_str list_type
                       ++ " (field: " ++ name f ++ ")")).
Proof.
  intros Ht He Hd. apply build_rejects.
  unfold_field_element. rewrite Ht.
  destruct list_type; try discriminate; reflexivity.
Qed.

(** X4. A list type with no or with several type arguments is rejected with
    "list must contain only one kind of data type (field: <name>)". *)
Theorem build_list_argument_count qn pre (f : field) post list_type_args n :
  type f = TAnnotated (TListOf list_type_args) [PInt n] ->
  List.length list_type_args <> 1%nat ->
  exists e,
    build_data_description (TDataclass qn (pre ++ f :: post)%list) = Raise e
    /\ (forallb body_ok pre = true ->
        e = Exception ("list must contain only one kind of data type (field: "
                       ++ name f ++ ")")).
Proof.
  intros Ht Hlen. apply build_rejects.
  unfold_field_element. rewrite Ht.
  destruct list_type_args as [|x [|y rest]]; simpl in Hlen; congruence.
Qed.

(** X5. An annotated type with an integer length whose first argument is not
    [str], [bytes] or a list type is rejected with "unsupported annotated
    type: <type> (field: <name>)"; elementary kinds and dataclasses are among
    the rejected first arguments. *)
Theorem build_unsupported_annotated_type qn pre (f : field) post arg_type n :
  type f = TAnnotated arg_type [PInt n] ->
  annotated_form arg_type = false ->
  exists e,
    build_data_description (TDataclass qn (pre ++ f :: post)%list) = Raise e
    /\ (forallb body_ok pre = true ->
        e = Exception ("unsupported annotated type: " ++ py_str arg_type
                       ++ " (field: " ++ name f ++ ")")).
Proof.
  intros Ht Hform. apply build_rejects.
  unfold_field_element. rewrite Ht.
  destruct arg_type; try discriminate; reflexivity.
Qed.

(** X6. A declared type that passes none of the four tests of the loop body
    (elementary, dataclass, annotated, bare list, bytes or str) is rejected
    with "unsupported data type (<type>) on field <name>". *)
Theorem build_unsupported_data_type qn pre (f : field) post :
  is_elementary (type f) = false ->
  is_dataclass (type f) = false ->
  is_annotated (type f) = false ->
  is_bare (type f) = false ->
  exists e,
    build_data_description (TDataclass qn (pre ++ f :: post)%list) = Raise e
    /\ (forallb body_ok pre = true ->
        e = Exception ("unsupported data type (" ++ py_str (type f)
                       ++ ") on field " ++ name f)).
Proof.
  intros He Hd Ha Hb. apply build_rejects.
  unfold_field_element.
  destruct (type f); try discriminate; reflexivity.
Qed.

(** X7. An annotated type with other than two arguments is rejected with
    "annotated value should only have two arguments (field: <name>)",
    whatever the arguments are. *)
Theorem build_annotated_argument_count qn pre (f : field) post arg_type metadata :
  type f = TAnnotated arg_type metadata ->
  List.length metadata <> 1%nat ->
  exists e,
    build_data_description (TDataclass qn (pre ++ f :: post)%list) = Raise e
    /\ (forallb body_ok pre = true ->
        e = Exception ("annotated value should only have two arguments (field: "
                       ++ name f ++ ")")).
Proof.
  intros Ht Hlen. apply build_rejects.
  now apply (annotated_argument_count _ f arg_type metadata).
Qed.

(** X8. An annotated type whose second argument is not an [int], a [bool]
    included, is rejected with the message "second annotated argument must be
    an integer to denote length" before its first argument is looked at. *)
Theorem build_length_not_int qn pre (f : field) post arg_type len :
  type f = TAnnotated arg_type [len] ->
  is_int len = false ->
  exists e,
    build_data_description (TDataclass qn (pre ++ f :: post)%list) = Raise e
    /\ (forallb body_ok pre = true ->
        e = Exception "second annotated argument must be an integer to denote length").
Proof.
  intros Ht Hlen. apply build_rejects.
  now apply (annotated_length_not_int _ f arg_type len).
Qed.

Lemma fields_loop_is_ok rec flds : forall od,
    is_ok (fields_loop rec flds od)
    = forallb (fun g => is_ok (field_element rec g)) flds.
Proof.
  induction flds as [|g flds IH]; simpl; intros od; [reflexivity|].
  destruct (field_element rec g); simpl; [apply IH | reflexivity].
Qed.

Lemma fields_loop_Raise rec flds : forall od e,
    fields_loop rec flds od = Raise e ->
    exists pre f post,
      flds = (pre ++ f :: post)%list
      /\ forallb (fun g => is_ok (field_element rec g)) pre = true
      /\ field_element rec f = Raise e.
Proof.
  induction flds as [|g flds IH]; simpl; intros od e H; [discriminate|].
  destruct (field_element rec g) as [x|eg] eqn:Hg; simpl in H.
  - destruct (IH _ _ H) as (pre & f & post & -> & Hpre & Hf).
    exists (g :: pre), f, post. simpl. rewrite Hg. auto.
  - inversion H; subst. exists [], g, flds. auto.
Qed.

(** X9. The build of a dataclass succeeds exactly when the loop body accepts
    every field, and when it fails the exception is that of the first field,
    in the order of declaration, that the body rejects. *)
Theorem build_first_rejected qn flds :
  is_ok (build_data_description (TDataclass qn flds)) = forallb body_ok flds
  /\ forall e,
      build_data_description (TDataclass qn flds) = Raise e <->
      exists pre f post,
        flds = (pre ++ f :: post)%list
        /\ forallb body_ok pre = true
        /\ field_element build_data_description f = Raise e.
Proof.
  split; [unfold_build; apply fields_loop_is_ok|].
  intros e. split.
  - unfold_build. apply fields_loop_Raise.
  - intros (pre & f & post & -> & Hpre & Hf). now apply build_field_raise.
Qed.

(** *** Messages and field names *)

Lemma prefix_append (s t : string) : String.prefix s (s ++ t) = true.
Proof.
  induction s as [|a s IH]; [destruct t; reflexivity|].
  simpl. destruct (ascii_dec a a); [exact IH | congruence].
Qed.

Lemma prefix_contains (sub s : string) :
  String.prefix sub s = true -> contains sub s = true.
Proof. intros H. destruct s; cbn [contains]; now rewrite H. Qed.

Lemma contains_self (sub t : string) : contains sub (sub ++ t) = true.
Proof. apply prefix_contains, prefix_append. Qed.

Lemma contains_refl (sub : string) : contains sub sub = true.
Proof. rewrite <- (append_empty_r sub) at 2. apply contains_self. Qed.

Lemma contains_append_l (sub a s : string) :
  contains sub s = true -> contains sub (a ++ s) = true.
Proof.
  intros H. induction a as [|c a IH]; cbn [append contains]; [exact H|].
  rewrite IH. now destruct (String.prefix sub (String c (a ++ s))).
Qed.

Lemma contains_cons (sub : string) (c : ascii) (s : string) :
  contains sub s = true -> contains sub (String c s) = true.
Proof. apply (contains_append_l sub (String c "") s). Qed.

Ltac names_field :=
  first [ apply contains_self
        | apply contains_refl
        | apply contains_cons; names_field
        | apply contains_append_l; names_field ].

(** A plain [Exception] of the loop body comes from a recursive call, or is
    the rejection of a length that is not an integer, or has the name of the
    field in its message; the list multiplication and the conversion of the
    length raise exceptions of other classes. *)
Lemma field_element_Raise rec (f : field) msg :
  field_element rec f = Raise (Exception msg) ->
  (exists t, In t (rec_calls (type f)) /\ rec t = Raise (Exception msg))
  \/ msg = "second annotated argument must be an integer to denote length"
  \/ contains (name f) msg = true.
Proof.
  intros H. field_cases H;
    repeat match type of H with
      | bind (rec ?t) _ = _ =>
          let Hr := fresh "Hr" in
          destruct (rec t) eqn:Hr; cbn [bind] in H;
          [|inversion H; subst; left; exists t; split; [simpl; now left | exact Hr]]
      | bind (list_mul ?x ?n) _ = _ =>
          let Hm := fresh "Hm" in
          destruct (list_mul x n) eqn:Hm; cbn [bind] in H;
          [|inversion H; subst; exfalso;
            exact (list_mul_not_Exception ELEMENTARY_TYPE x n msg Hm)]
      | bind (format_int ?n) _ = _ =>
          let Hm := fresh "Hm" in
          destruct (format_int n) eqn:Hm; cbn [bind] in H;
          [|inversion H; subst; exfalso;
            exact (format_int_not_Exception ELEMENTARY_TYPE n msg Hm)]
      end;
    try discriminate H;
    inversion H; subst; clear H;
    try (right; left; reflexivity);
    right; right; names_field.
Qed.

Lemma rec_calls_names (f : field) t qn flds :
  In f flds -> In t (rec_calls (type f)) ->
  incl (field_names_deep t) (field_names_deep (TDataclass qn flds)).
Proof.
  intros Hf Ht nm Hnm. cbn [field_names_deep]. apply in_flat_map.
  exists f. split; [assumption|]. right.
  destruct (type f) as [|qn' flds'|a md| | | | |]; simpl in Ht; try tauto.
  - destruct Ht as [<-|[]]. exact Hnm.
  - destruct a as [| | |[|[|qn' flds'| | | | | |] [|]]| | | |]; simpl in Ht; try tauto.
    destruct Ht as [<-|[]]. cbn [field_names_deep flat_map].
    rewrite app_nil_r. exact Hnm.
Qed.

(** X10. Whenever the build of a dataclass fails with a plain [Exception],
    the class of every raise statement of the builder, the message is either
    the rejection of a length that is not an integer or contains the name of a
    field of the dataclass or of one of its nested dataclasses. *)
Theorem build_error_names_field qn flds msg :
  build_data_description (TDataclass qn flds) = Raise (Exception msg) ->
  msg = "second annotated argument must be an integer to denote length"
  \/ exists nm,
      In nm (field_names_deep (TDataclass qn flds))
      /\ contains nm msg = true.
Proof.
  revert msg. pattern (TDataclass qn flds). apply build_ind. clear qn flds.
  intros qn flds IH msg He. unfold_build_in He.
  apply fields_loop_Raise in He as (pre & f & post & -> & _ & Hf).
  assert (In f (pre ++ f :: post)%list) as Hin by apply in_elt.
  apply field_element_Raise in Hf as [(t & Ht & Hrec)|[->|Hmsg]].
  - destruct (IH f t Hin Ht msg Hrec) as [->|(nm & Hnm & Hmsg)]; [now left|].
    right. exists nm. split; [|assumption].
    eapply rec_calls_names; eassumption.
  - now left.
  - right. exists (name f). split; [|assumption].
    cbn [field_names_deep]. apply in_flat_map. exists f. split; [assumption | now left].
Qed.

(** *** The keys of a description *)

(** X11. For a dataclass whose field names are pairwise distinct and do not
    use the marker key, the keys of the description are the marker followed by
    the field names in the order of declaration, and the marker entry holds
    the dataclass itself. *)
Theorem build_keys qn flds (d : description) :
  field_names_ok flds = true ->
  build_data_description (TDataclass qn flds) = Ok d ->
  map fst d = STRUCT_TYPE :: map (@name _) flds
  /\ od_get STRUCT_TYPE d = Some (EType (TDataclass qn flds)).
Proof.
  intros Hnames Hd. unfold_build_in Hd.
  unfold field_names_ok in Hnames. apply andb_prop in Hnames as [Hnd Hmark].
  apply negb_true_iff, existsb_eqb_false in Hmark.
  apply fields_loop_entries in Hd as (es & Hes & ->);
    [|simpl; constructor; [assumption | now apply nodupb_NoDup]].
  split; [|reflexivity].
  simpl. f_equal. clear Hnd Hmark.
  induction Hes as [|f e flds es _ _ IH]; simpl; [reflexivity | now rewrite IH].
Qed.

Lemma od_set_keys {V} (k k' : string) (v : V) (od : OrderedDict V) :
  In k (map fst (od_set k' v od)) -> k = k' \/ In k (map fst od).
Proof.
  induction od as [|[k0 v0] od IH]; simpl.
  - intros [<-|[]]. now left.
  - destruct (String.eqb k0 k') eqn:E; simpl.
    + apply String.eqb_eq in E; subst k0. tauto.
    + intros [<-|H]; [tauto|]. apply IH in H. tauto.
Qed.

(** Assigning under the marker key does not change the compiled pattern. *)
Lemma od_set_marker_items rec (e : element) (od : description) : forall acc,
    items_loop rec (od_set STRUCT_TYPE e od) acc = items_loop rec od acc.
Proof.
  induction od as [|[k v] od IH]; intros acc.
  - reflexivity.
  - cbn [od_set]. destruct (String.eqb k STRUCT_TYPE) eqn:E.
    + cbn [items_loop]. rewrite E. reflexivity.
    + cbn [items_loop]. rewrite E.
      destruct (root_element_pattern rec k v acc); simpl; [apply IH | reflexivity].
Qed.

Lemma fields_loop_pattern flds : forall (od od' : description),
    NoDup (map (@name _) flds) ->
    (forall f, In f flds -> name f <> STRUCT_TYPE -> ~ In (name f) (map fst od)) ->
    fields_loop build_data_description flds od = Ok od' ->
    exists ps,
      Forall2 (fun f s => field_pattern f = Ok s) (visible_fields flds) ps
      /\ forall acc,
          items_loop dict_pattern od' acc
          = p <- items_loop dict_pattern od acc ;; Ok (p ++ String.concat "" ps).
Proof.
  induction flds as [|f flds IH]; intros od od' Hnd Hfresh H.
  - inversion H; subst. exists []. split; [constructor|].
    intros acc. destruct (items_loop dict_pattern od' acc); simpl;
      [now rewrite append_empty_r | reflexivity].
  - cbn [fields_loop] in H. apply bind_Ok in H as (e & He & Hl).
    inversion Hnd as [|? ? Hf Hnd']; subst.
    apply IH in Hl as (ps & Hps & Hloop); [|assumption|].
    + destruct (String.eqb (name f) STRUCT_TYPE) eqn:E.
      * exists ps. split.
        -- unfold visible_fields. cbn [filter]. rewrite E. exact Hps.
        -- intros acc. rewrite Hloop.
           apply String.eqb_eq in E. rewrite E.
           now rewrite od_set_marker_items.
      * assert (compilable e = true) as Hc.
        { eapply field_element_compilable; [|exact He].
          intros t d' _ Hd'. destruct t; try discriminate.
          eapply build_compilable; eassumption. }
        destruct (compilable_pattern e Hc (name f)) as (s & Hs).
        exists (s :: ps). split.
        -- unfold visible_fields. cbn [filter]. rewrite E. cbn [negb].
           constructor; [|exact Hps].
           unfold_field_pattern. now rewrite He.
        -- intros acc. rewrite Hloop.
           rewrite od_set_fresh
             by (apply Hfresh; [now left | now apply String.eqb_neq]).
           rewrite items_loop_app.
           destruct (items_loop dict_pattern od acc) as [p0|]; cbn [bind];
             [|reflexivity].
           cbn [items_loop]. rewrite E.
           rewrite root_element_pattern_acc, Hs. cbn [bind].
           now rewrite concat_cons, append_assoc.
    + intros g Hg Hgm Hin. apply od_set_keys in Hin as [Heq|Hin].
      * apply Hf. rewrite <- Heq. now apply in_map.
      * apply (Hfresh g); [now right | assumption | assumption].
Qed.

(** X12. For a dataclass with pairwise distinct field names the compiled
    pattern is the concatenation, in the order of declaration, of what the
    fields not called ["__struct_type__"] contribute: a field of that name
    takes the place of the marker entry and adds nothing to the pattern. *)
Theorem build_data_pattern_visible qn flds (d : description) :
  nodupb (map (@name _) flds) = true ->
  build_data_description (TDataclass qn flds) = Ok d ->
  exists ps,
    Forall2 (fun f s => field_pattern f = Ok s) (visible_fields flds) ps
    /\ build_data_pattern d = Ok (String.concat "" ps).
Proof.
  intros Hnd Hd. unfold_build_in Hd.
  apply fields_loop_pattern in Hd as (ps & Hps & Hloop).
  - exists ps. split; [exact Hps|]. unfold build_data_pattern.
    rewrite Hloop. cbn [items_loop]. now rewrite String.eqb_refl.
  - now apply nodupb_NoDup.
  - intros f _ Hf [Heq|[]]. now apply Hf.
Qed.

(** ** Further properties of the compiler *)

Lemma concat_app (l1 l2 : list string) :
  String.concat "" (l1 ++ l2)%list = String.concat "" l1 ++ String.concat "" l2.
Proof.
  induction l1 as [|x l1 IH]; [reflexivity|].
  cbn [app]. now rewrite !concat_cons, IH, append_assoc.
Qed.

Lemma marker_clean_EDict (d : description) :
  marker_clean (EDict d) = true <->
  Forall (fun kv => if String.eqb (fst kv) STRUCT_TYPE
                    then exists t, snd kv = EType t
                    else marker_clean (snd kv) = true) d.
Proof.
  change (marker_clean (EDict d))
    with (forallb (fun kv => if String.eqb (fst kv) STRUCT_TYPE
                             then match snd kv with EType _ => true | _ => false end
                             else marker_clean (snd kv)) d).
  rewrite forallb_forall, Forall_forall.
  split; intros H kv Hin; specialize (H kv Hin);
    destruct (String.eqb (fst kv) STRUCT_TYPE); try assumption.
  - destruct (snd kv); try discriminate. eauto.
  - destruct H as (t & ->). reflexivity.
Qed.

(** On a description whose marker entries hold type objects the pattern is
    made of the tags of the leaves, in order. *)
Lemma pattern_leaf_tags (e : element) :
  compilable e = true ->
  marker_clean e = true ->
  forall nm acc,
    root_element_pattern dict_pattern nm e acc
    = Ok (acc ++ String.concat "" (map (@parser_tag _) (element_leaves e))).
Proof.
  induction e as [t|b|l IH|d IH] using element_nested_ind; intros Hc Hm nm acc.
  - discriminate.
  - reflexivity.
  - cbn [root_element_pattern element_leaves]. simpl in Hc, Hm. revert acc.
    induction IH as [|x l Hx _ IHl]; intros acc.
    + cbn. now rewrite append_empty_r.
    + simpl in Hc, Hm.
      apply andb_prop in Hc as [Hcx Hcl]. apply andb_prop in Hm as [Hmx Hml].
      cbn [flat_map]. rewrite map_app, concat_app.
      destruct x as [t|b|l'|d]; try discriminate; cbn [sub_elements_loop].
      * rewrite (IHl Hcl Hml). cbn [element_leaves map].
        now rewrite concat_cons, append_empty_r, append_assoc.
      * pose proof (Hx Hcx Hmx nm "") as Hd.
        apply bind_Ok in Hd as (s & Hs & Hd). rewrite Hs. cbn [bind].
        inversion Hd as [Hd']. cbn [append] in Hd'. subst s.
        rewrite (IHl Hcl Hml). now rewrite append_assoc.
  - cbn [root_element_pattern].
    cut (forall acc',
            items_loop dict_pattern d acc'
            = Ok (acc' ++ String.concat ""
                            (map (@parser_tag _) (element_leaves (EDict d))))).
    { intros Hd. rewrite dict_pattern_EDict. unfold build_data_pattern.
      rewrite Hd. reflexivity. }
    apply compilable_EDict in Hc. apply marker_clean_EDict in Hm.
    cbn [element_leaves].
    induction IH as [|[k x] l Hx _ IHl]; intros acc'.
    + cbn. now rewrite append_empty_r.
    + inversion Hc as [|? ? Hkx Hcl]; subst.
      inversion Hm as [|? ? Hmx Hml]; subst.
      cbn [fst snd] in Hkx, Hmx, Hx.
      cbn [items_loop flat_map snd]. rewrite map_app, concat_app.
      destruct (String.eqb k STRUCT_TYPE) eqn:Ek.
      * destruct Hmx as (t & ->). cbn [element_leaves map String.concat append].
        now apply IHl.
      * destruct Hkx as [->|Hcx]; [now rewrite String.eqb_refl in Ek|].
        rewrite (Hx Hcx Hmx k acc'). cbn [bind].
        rewrite (IHl Hcl Hml). now rewrite append_assoc.
Qed.

Lemma field_element_marker_clean rec (f : field) (e : element) :
  (forall t d, In t (rec_calls (type f)) -> rec t = Ok d ->
               marker_clean (EDict d) = true) ->
  field_element rec f = Ok e ->
  marker_clean e = true.
Proof.
  intros Hrec H. field_cases H; field_results H; try reflexivity.
  - eapply Hrec; [|eassumption]. simpl. now left.
  - simpl. now apply forallb_repeat.
  - simpl. apply forallb_repeat.
    eapply Hrec; [|eassumption]. simpl. now left.
Qed.

Lemma rec_calls_marker_free (t t' : pytype) :
  marker_free t = true -> In t' (rec_calls t) -> marker_free t' = true.
Proof.
  intros Hm Ht.
  destruct t as [|qn' flds'|a md| | | | |]; simpl in Ht; try tauto.
  - destruct Ht as [<-|[]]. exact Hm.
  - destruct a as [| | |[|[|qn' flds'| | | | | |] [|]]| | | |]; simpl in Ht; try tauto.
    destruct Ht as [<-|[]]. cbn [marker_free forallb] in Hm.
    now apply andb_prop in Hm as [Hm _].
Qed.

Lemma build_marker_clean qn flds :
  marker_free (TDataclass qn flds) = true ->
  forall d : description,
    build_data_description (TDataclass qn flds) = Ok d ->
    marker_clean (EDict d) = true.
Proof.
  pattern (TDataclass qn flds). apply build_ind. clear qn flds.
  intros qn flds IH Hfree d Hd. unfold_build_in Hd.
  cbn [marker_free] in Hfree. rewrite forallb_forall in Hfree.
  apply marker_clean_EDict.
  eapply fields_loop_Forall; [| |exact Hd].
  - intros f e Hf He. cbn [fst snd].
    specialize (Hfree f Hf). apply andb_prop in Hfree as [Hname Hfree].
    apply negb_true_iff in Hname. rewrite Hname.
    eapply field_element_marker_clean; [|exact He].
    intros t d' Ht Hd'. eapply IH; try eassumption.
    eapply rec_calls_marker_free; eassumption.
  - constructor; [|constructor]. cbn [fst snd]. rewrite String.eqb_refl. eauto.
Qed.

(** X13. For a type none of whose fields, at any depth, is called
    ["__struct_type__"], the compiled pattern is the concatenation of the
    parser tags of the [BasicParsingElement]s of the description, in order. *)
Theorem build_data_pattern_leaf_tags (datatype : pytype) (d : description) :
  marker_free datatype = true ->
  build_data_description datatype = Ok d ->
  build_data_pattern d = Ok (String.concat "" (map (@parser_tag _) (leaves d))).
Proof.
  intros Hfree Hd.
  destruct datatype as [|qn flds| | | | | |]; try discriminate.
  pose proof (pattern_leaf_tags (EDict d)
                (build_compilable qn flds d Hd)
                (build_marker_clean qn flds Hfree d Hd) "" "") as H.
  apply bind_Ok in H as (s & Hs & H). rewrite dict_pattern_EDict in Hs.
  rewrite Hs. inversion H as [H']. reflexivity.
Qed.

(** X14. Compiling the concatenation of two descriptions gives the
    concatenation of their patterns; when one of them fails, the first
    failure is the failure of the whole. *)
Theorem build_data_pattern_app (d1 d2 : description) :
  build_data_pattern (d1 ++ d2)%list
  = p1 <- build_data_pattern d1 ;; p2 <- build_data_pattern d2 ;; Ok (p1 ++ p2).
Proof.
  unfold build_data_pattern. rewrite items_loop_app.
  destruct (items_loop dict_pattern d1 "") as [p1|]; cbn [bind]; [|reflexivity].
  apply items_loop_acc.
Qed.

(** The compiler accepts exactly the compilable entries. *)
Lemma root_element_pattern_is_ok (e : element) :
  forall nm acc,
    is_ok (root_element_pattern dict_pattern nm e acc) = compilable e.
Proof.
  induction e as [t|b|l IH|d IH] using element_nested_ind; intros nm acc.
  - reflexivity.
  - reflexivity.
  - cbn [root_element_pattern]. simpl compilable. revert acc.
    induction IH as [|x l Hx _ IHl]; intros acc; [reflexivity|].
    cbn [forallb]. destruct x as [t|b|l'|d]; cbn [sub_elements_loop]; try reflexivity.
    + apply IHl.
    + rewrite <- (Hx nm ""). cbn [root_element_pattern].
      destruct (dict_pattern (EDict d)) as [s|]; cbn [bind is_ok andb];
        [apply IHl | reflexivity].
  - cbn [root_element_pattern].
    cut (forall acc', is_ok (items_loop dict_pattern d acc') = compilable (EDict d)).
    { intros Hd. rewrite dict_pattern_EDict. unfold build_data_pattern.
      specialize (Hd ""). destruct (items_loop dict_pattern d ""); exact Hd. }
    change (compilable (EDict d))
      with (forallb (fun kv => String.eqb (fst kv) STRUCT_TYPE || compilable (snd kv)) d).
    induction IH as [|[k x] l Hx _ IHl]; intros acc'; [reflexivity|].
    cbn [forallb items_loop fst snd] in *.
    destruct (String.eqb k STRUCT_TYPE); cbn [orb andb]; [apply IHl|].
    rewrite <- (Hx k acc').
    destruct (root_element_pattern dict_pattern k x acc'); cbn [bind is_ok andb];
      [apply IHl | reflexivity].
Qed.

(** X15. The compiler returns a pattern exactly on the descriptions in which
    every entry under a key other than the marker is a
    [BasicParsingElement], a description that itself compiles, or a list of
    such; anything stored under the marker key is accepted. *)
Theorem build_data_pattern_is_ok (d : description) :
  is_ok (build_data_pattern d) = compilable (EDict d).
Proof.
  rewrite <- (root_element_pattern_is_ok (EDict d) "" "").
  cbn [root_element_pattern]. rewrite dict_pattern_EDict.
  now destruct (build_data_pattern d).
Qed.

Lemma root_element_pattern_Raise (e : element) :
  forall nm acc err,
    nm <> STRUCT_TYPE ->
    root_element_pattern dict_pattern nm e acc = Raise err ->
    exists k,
      k <> STRUCT_TYPE
      /\ (err = Exception ("invalid list type found (" ++ k ++ ")")
          \/ exists t,
              err = Exception ("invalid element type found (" ++ k ++ ": "
                               ++ py_type_str t ++ ")")).
Proof.
  induction e as [t|b|l IH|d IH] using element_nested_ind; intros nm acc err Hnm H.
  - inversion H; subst. exists nm. split; [assumption | right; now exists t].
  - discriminate.
  - cbn [root_element_pattern] in H. revert acc H.
    induction IH as [|x l Hx _ IHl]; intros acc H; [discriminate|].
    destruct x as [t|b|l'|d]; cbn [sub_elements_loop] in H.
    + inversion H; subst. exists nm. split; [assumption | now left].
    + now apply (IHl _ H).
    + inversion H; subst. exists nm. split; [assumption | now left].
    + destruct (dict_pattern (EDict d)) as [s|e'] eqn:Hd; cbn [bind] in H.
      * now apply (IHl _ H).
      * inversion H; subst. apply (Hx nm "" err Hnm).
        cbn [root_element_pattern]. now rewrite Hd.
  - cbn [root_element_pattern] in H.
    destruct (dict_pattern (EDict d)) as [s|e'] eqn:Hd; cbn [bind] in H;
      [discriminate|].
    inversion H; subst. rewrite dict_pattern_EDict in Hd.
    unfold build_data_pattern in Hd.
    cut (forall acc',
            items_loop dict_pattern d acc' = Raise err ->
            exists k,
              k <> STRUCT_TYPE
              /\ (err = Exception ("invalid list type found (" ++ k ++ ")")
                  \/ exists t,
                      err = Exception ("invalid element type found (" ++ k ++ ": "
                                       ++ py_type_str t ++ ")"))).
    { intros Hgen. exact (Hgen _ Hd). }
    clear Hd H.
    induction IH as [|[k x] l Hx _ IHl]; intros acc' Hd; [discriminate|].
    cbn [items_loop fst snd] in *.
    destruct (String.eqb k STRUCT_TYPE) eqn:Ek; [now apply (IHl _ Hd)|].
    destruct (root_element_pattern dict_pattern k x acc') as [p|e'] eqn:Hk;
      cbn [bind] in Hd.
    + now apply (IHl _ Hd).
    + inversion Hd; subst. apply (Hx k acc' err); [now apply String.eqb_neq | exact Hk].
Qed.

(** X16. Whenever the compiler fails, the exception is "invalid list type
    found (<key>)", or "invalid element type found (<key>: <type>)" with
    [<type>] the text of the type of an object, for a key other than the
    marker. *)
Theorem build_data_pattern_Raise (d : description) err :
  build_data_pattern d = Raise err ->
  exists k,
    k <> STRUCT_TYPE
    /\ (err = Exception ("invalid list type found (" ++ k ++ ")")
        \/ exists t,
            err = Exception ("invalid element type found (" ++ k ++ ": "
                             ++ py_type_str t ++ ")")).
Proof.
  intros H. apply (root_element_pattern_Raise (EDict d) "" "" err).
  - discriminate.
  - cbn [root_element_pattern]. rewrite dict_pattern_EDict, H. reflexivity.
Qed.

(** *** The leaves the builder constructs *)

Section BuiltLeaves.
Variable L : BasicParsingElement ELEMENTARY_TYPE -> Prop.
Hypothesis L_elementary :
  forall k dflt, L (elementary_element (TElementary k) k dflt).
Hypothesis L_str :
  forall len dflt, L (mkBasic TStr TStr (str_of_int len ++ "s") len dflt [] PNone).
Hypothesis L_bytes :
  forall len dflt, L (mkBasic TBytes TBytes (str_of_int len ++ "p") len dflt [] PNone).

Lemma field_element_leaves_all rec (f : field) (e : element) :
  (forall t d, In t (rec_calls (type f)) -> rec t = Ok d -> Forall L (leaves d)) ->
  field_element rec f = Ok e ->
  Forall L (element_leaves e).
Proof.
  intros Hrec H. field_cases H; field_results H.
  - repeat constructor. apply L_elementary.
  - eapply Hrec; [simpl; now left | eassumption].
  - cbn [element_leaves]. apply Forall_flat_map, Forall_forall.
    intros x Hx. apply repeat_spec in Hx; subst x.
    repeat constructor. apply L_elementary.
  - cbn [element_leaves]. apply Forall_flat_map, Forall_forall.
    intros x Hx. apply repeat_spec in Hx; subst x.
    eapply Hrec; [simpl; now left | eassumption].
  - repeat constructor. apply L_bytes.
  - repeat constructor. apply L_str.
Qed.

Lemma built_leaves_all (datatype : pytype) (d : description) :
  build_data_description datatype = Ok d -> Forall L (leaves d).
Proof.
  destruct datatype as [|qn flds| | | | | |]; try discriminate.
  revert d. pattern (TDataclass qn flds). apply build_ind. clear qn flds.
  intros qn flds IH d Hd. unfold_build_in Hd.
  unfold leaves. apply Forall_flat_map.
  eapply fields_loop_Forall; [| |exact Hd].
  - intros f e Hf He. cbn [snd].
    eapply field_element_leaves_all; [|exact He].
    intros t d' Ht Hd'. eapply IH; eassumption.
  - repeat constructor.
Qed.
End BuiltLeaves.

(** X17. Every [BasicParsingElement] of a built description is fresh: it
    holds no raw data and no parsed value, and its python type is the
    registry's for an elementary kind, [str] for a sized string and [bytes]
    for a sized byte blob. *)
Theorem built_leaf_fresh (datatype : pytype) (d : description) b :
  build_data_description datatype = Ok d ->
  In b (leaves d) ->
  raw_data b = []
  /\ parsed_value b = PNone
  /\ match parsing_type b with
     | TElementary k => python_type b = TYPE_TO_PYTYPE k
     | TStr => python_type b = TStr
     | TBytes => python_type b = TBytes
     | _ => False
     end.
Proof.
  intros Hd Hb.
  pose proof (built_leaves_all
                (fun b => raw_data b = []
                          /\ parsed_value b = PNone
                          /\ match parsing_type b with
                             | TElementary k => python_type b = TYPE_TO_PYTYPE k
                             | TStr => python_type b = TStr
                             | TBytes => python_type b = TBytes
                             | _ => False
                             end)) as H.
  cbn in H. specialize (H (fun _ _ => conj eq_refl (conj eq_refl eq_refl))
                          (fun _ _ => conj eq_refl (conj eq_refl eq_refl))
                          (fun _ _ => conj eq_refl (conj eq_refl eq_refl))
                          datatype d Hd).
  rewrite Forall_forall in H. exact (H b Hb).
Qed.

(** *** Names and defaults do not reach the pattern *)

Lemma sub_elements_loop_name rec nm nm' (l : list element) : forall acc s,
    sub_elements_loop rec nm l acc = Ok s ->
    sub_elements_loop rec nm' l acc = Ok s.
Proof.
  induction l as [|x l IH]; intros acc s H; [exact H|].
  destruct x as [t|b|l'|d]; cbn [sub_elements_loop] in *; try discriminate.
  - now apply IH.
  - destruct (rec (EDict d)); cbn [bind] in *; [now apply IH | discriminate].
Qed.

Lemma root_element_pattern_name rec nm nm' (e : element) acc s :
  root_element_pattern rec nm e acc = Ok s ->
  root_element_pattern rec nm' e acc = Ok s.
Proof.
  destruct e as [t|b|l|d]; cbn [root_element_pattern]; try discriminate; auto.
  apply sub_elements_loop_name.
Qed.

(** X18. What a field adds to the pattern is decided by its declared type
    alone: two fields of the same declared type that the loop body accepts
    add the same text, whatever their names and default values. *)
Theorem field_pattern_type_only (f g : field) s :
  type f = type g ->
  field_pattern f = Ok s ->
  is_ok (field_element build_data_description g) = true ->
  field_pattern g = Ok s.
Proof.
  intros Ht Hf Hg. unfold_field_pattern. unfold field_pattern in Hf.
  apply bind_Ok in Hf as (e & He & Hp).
  apply is_ok_true in Hg as (e' & He'). rewrite He'. cbn [bind].
  unfold_field_element_in He. unfold_field_element_in He'. rewrite Ht in He.
  repeat match type of He' with
         | context [match ?x with _ => _ end] =>
             let E := fresh "E" in
             destruct x eqn:E; try discriminate He'; try discriminate He
         end;
    try (destruct (default f); [discriminate He|]);
    repeat (let r := fresh "r" in
            let Hr := fresh "Hr" in
            apply bind_Ok in He as (r & Hr & He));
    repeat (let r := fresh "r" in
            let Hr := fresh "Hr" in
            apply bind_Ok in He' as (r & Hr & He'));
    repeat match goal with
      | H1 : ?c = Ok ?a, H2 : ?c = Ok ?b |- _ =>
          lazymatch c with
          | Ok _ => fail
          | _ => tryif constr_eq a b then fail
                 else (rewrite H1 in H2; inversion H2; subst; clear H2)
          end
      end;
    inversion He; inversion He'; subst e e';
    first [exact Hp | eapply root_element_pattern_name; exact Hp].
Qed.

End RegistryFacts.

(** * The scenarios of the specification, and the claims at concrete types *)

Section Scenarios.
Import Sample.

Local Notation TO_PYTYPE := Sample.TYPE_TO_PYTYPE.
Local Notation TO_TAG := Sample.TYPE_TO_TAG.
Local Notation TO_LENGTH := Sample.TYPE_TO_LENGTH.

Example str_of_int_examples :
  str_of_int 12 = "12" /\ str_of_int 0 = "0" /\ str_of_int (-3) = "-3".
Proof. repeat split. Qed.

Example pattern_Message : pattern Message = Ok "I4sBBB".
Proof. reflexivity. Qed.

Example pattern_Outer : pattern Outer = Ok "ff" /\ pattern Point = Ok "ff".
Proof. split; reflexivity. Qed.

Example pattern_Pair : pattern Pair = Ok "ffff".
Proof. reflexivity. Qed.

Example leaves_Message :
  exists d, build Message = Ok d /\ List.length (leaves d) = 5%nat.
Proof. eexists. split; reflexivity. Qed.

(** A field called ["__struct_type__"] replaces the marker entry and is
    skipped by the compiler. *)
Remark marker_key_as_field_name :
  pattern Shadow = Ok "B" /\ field_names_ok [fld "__struct_type__" (TElementary U8)] = false.
Proof. split; reflexivity. Qed.

Lemma build_elementary_field_witness :
  exists d,
    build Reading = Ok d
    /\ od_get "a" d
       = Some (EBasic {| parsing_type := TElementary U32;
                         python_type := py_int;
                         parser_tag := "I";
                         length := 4;
                         default_value := PInt 7;
                         raw_data := [];
                         parsed_value := PNone |}).
Proof.
  eexists. split; [vm_compute; reflexivity|].
  apply (@build_elementary_field kind TO_PYTYPE TO_TAG TO_LENGTH py_str interpreter
           "Reading" [reading_a; fld "b" (TElementary U8)] _ reading_a U32);
    [reflexivity | left; reflexivity | reflexivity | reflexivity].
Defined.

Lemma build_repeated_elementary_field_witness :
  exists d,
    build Message = Ok d
    /\ od_get "c" d
       = Some (EList (repeat (EBasic (elementary_element TO_PYTYPE TO_TAG TO_LENGTH
                                        (TElementary U8) U8 PNone)) 3))
    /\ field_pattern TO_PYTYPE TO_TAG TO_LENGTH py_str message_c = Ok "BBB".
Proof.
  eexists. split; [vm_compute; reflexivity|].
  destruct (@build_repeated_elementary_field kind TO_PYTYPE TO_TAG TO_LENGTH py_str interpreter
              "Message" [fld "a" (TElementary U32); message_b; message_c]
              _ message_c U8 3
              eq_refl (or_intror (or_intror (or_introl eq_refl))) eq_refl eq_refl)
    as (Hget & _ & Hpat).
  split; [exact Hget | exact Hpat].
Defined.

Lemma build_sized_text_field_witness :
  (exists d,
      build Message = Ok d
      /\ od_get "b" d
         = Some (EBasic {| parsing_type := TStr;
                           python_type := TStr;
                           parser_tag := "4s";
                           length := 4;
                           default_value := PNone;
                           raw_data := [];
                           parsed_value := PNone |}))
  /\ (exists d,
         build Blob = Ok d
         /\ od_get "data" d
            = Some (EBasic {| parsing_type := TBytes;
                              python_type := TBytes;
                              parser_tag := "16p";
                              length := 16;
                              default_value := PBytes [];
                              raw_data := [];
                              parsed_value := PNone |})).
Proof.
  split; eexists; (split; [vm_compute; reflexivity|]).
  - apply (@build_sized_text_field kind TO_PYTYPE TO_TAG TO_LENGTH py_str interpreter
             "Message" [fld "a" (TElementary U32); message_b; message_c]
             _ message_b 4
             eq_refl (or_intror (or_introl eq_refl)) eq_refl).
    reflexivity.
  - apply (@build_sized_text_field kind TO_PYTYPE TO_TAG TO_LENGTH py_str interpreter
             "Blob" [blob_data] _ blob_data 16
             eq_refl (or_introl eq_refl) eq_refl).
    reflexivity.
Defined.

Lemma build_nested_field_witness :
  build Holder
  = Raise (Exception "cannot have default value on nested types (field: inner)")
  /\ exists d sub,
      build Outer = Ok d /\ build Point = Ok sub
      /\ od_get "inner" d = Some (EDict sub).
Proof.
  split.
  - destruct (@build_nested_field kind TO_PYTYPE TO_TAG TO_LENGTH py_str interpreter
                "Holder" [] holder_inner [] "Point"
                [fld "x" (TElementary F32); fld "y" (TElementary F32)] eq_refl)
      as (e & He & Hmsg).
    rewrite (Hmsg eq_refl) in He. exact He.
  - eexists. eexists. split; [vm_compute; reflexivity|].
    split; [vm_compute; reflexivity|].
    exact (@build_nested_field kind TO_PYTYPE TO_TAG TO_LENGTH py_str interpreter
             "Outer" [] outer_inner [] "Point"
             [fld "x" (TElementary F32); fld "y" (TElementary F32)]
             eq_refl eq_refl eq_refl _ eq_refl).
Defined.

Lemma build_unannotated_field_witness :
  build Bare
  = Raise (Exception
             "cannot have unannotated list, string, or bytes type (length required, field: text)").
Proof.
  destruct (@build_unannotated_field kind TO_PYTYPE TO_TAG TO_LENGTH py_str interpreter
              "Bare" [fld "a" (TElementary U8)] bare_text []
              (or_intror (or_intror eq_refl)))
    as (e & He & Hmsg).
  rewrite (Hmsg eq_refl) in He. exact He.
Defined.

(** C7. With [Annotated[str, "4"]] on the field [payload] the builder raises
    an exception whose message does not contain the name of the field,
    whereas with three arguments, as at every other rejection, the message
    ends with the name. *)
Theorem length_not_int_message_omits_field :
  build Frame
  = Raise (Exception "second annotated argument must be an integer to denote length")
  /\ contains "payload" "second annotated argument must be an integer to denote length"
     = false
  /\ build Frame3
     = Raise (Exception
                "annotated value should only have two arguments (field: payload)").
Proof. repeat split. Qed.

Lemma pattern_of_type_deterministic_witness :
  exists p,
    pattern Message = Ok p
    /\ forall d1 d2 p1 p2,
        build Message = Ok d1 -> compile d1 = Ok p1 ->
        build Message = Ok d2 -> compile d2 = Ok p2 ->
        p1 = p /\ p2 = p.
Proof.
  exact (@pattern_of_type_deterministic kind TO_PYTYPE TO_TAG TO_LENGTH py_str interpreter
           Message _ eq_refl).
Defined.

Lemma build_data_pattern_concat_witness :
  exists d ps,
    build Segment = Ok d
    /\ Forall2 (fun f s =>
                  field_pattern TO_PYTYPE TO_TAG TO_LENGTH py_str f = Ok s
                  /\ (is_dataclass (type f) = true ->
                      pattern (type f) = Ok s))
               [fld "id" (TElementary U8); segment_start; fld "end" Point] ps
    /\ compile d = Ok (String.concat "" ps).
Proof.
  eexists. 
  destruct (@build_data_pattern_concat kind TO_PYTYPE TO_TAG TO_LENGTH py_str interpreter
              "Segment" [fld "id" (TElementary U8); segment_start; fld "end" Point]
              _ eq_refl eq_refl)
    as (ps & Hps & Hd).
  exists ps. split; [reflexivity | split; [exact Hps | exact Hd]].
Defined.

(** At [Annotated[str, 0]] the builder returns a [BasicParsingElement] of
    length zero. *)
Lemma zero_length_leaf_counterexample :
  exists d b,
    build Blank = Ok d
    /\ In b (leaves d)
    /\ length b = 0
    /\ ~ (0 < length b /\ parser_tag b <> "").
Proof.
  eexists. eexists. split; [vm_compute; reflexivity|].
  split; [left; reflexivity|]. split; [reflexivity|].
  simpl. intros [H _]. discriminate H.
Qed.

Lemma built_leaf_invariant_witness :
  exists d b,
    build Blank = Ok d
    /\ In b (leaves d)
    /\ In (TStr, length b) (declared_lengths Blank)
    /\ length b = 0
    /\ parser_tag b = "0s"
    /\ parser_tag b <> "".
Proof.
  eexists. eexists. split; [vm_compute; reflexivity|].
  split; [left; reflexivity|].
  destruct (@built_leaf_invariant kind TO_PYTYPE TO_TAG TO_LENGTH py_str interpreter
              Blank _ _ eq_refl (or_introl eq_refl))
    as ((Hin & Htag) & Hne & _).
  split; [exact Hin|]. split; [reflexivity|]. split; [exact Htag|].
  apply Hne. intros []; discriminate.
Defined.

(** With a count below the index-sized integers the list multiplication
    raises [OverflowError]. *)
Lemma count_below_index_range_counterexample :
  - 2 ^ 63 - 1 <= 0
  /\ type burst_items = TAnnotated (TListOf [TElementary U8]) [PInt (- 2 ^ 63 - 1)]
  /\ build Burst
     = Raise (OverflowError "cannot fit 'int' into an index-sized integer")
  /\ ~ exists d, build Burst = Ok d.
Proof.
  split; [lia|]. split; [reflexivity|]. split; [vm_compute; reflexivity|].
  intros (d & Hd). vm_compute in Hd. discriminate Hd.
Qed.

Lemma build_nonpositive_count_witness :
  exists d,
    build NoPoints = Ok d
    /\ od_get "points" d = Some (EList [])
    /\ field_pattern TO_PYTYPE TO_TAG TO_LENGTH py_str nopoints_points = Ok ""
    /\ pattern NoPoints = Ok "BB".
Proof.
  destruct (@build_nonpositive_count kind TO_PYTYPE TO_TAG TO_LENGTH py_str interpreter
              "NoPoints" [fld "a" (TElementary U8)] nopoints_points
              [fld "b" (TElementary U8)] Point (-2)
              eq_refl ltac:(lia) eq_refl eq_refl eq_refl eq_refl eq_refl)
    as (d & Hd & Hget & Hpat & _).
  exists d. split; [exact Hd|]. split; [exact Hget|]. split; [exact Hpat|].
  reflexivity.
Defined.

End Scenarios.

(** * The further properties at concrete types *)

Section MoreScenarios.
Import Sample.

Local Notation TO_PYTYPE := Sample.TYPE_TO_PYTYPE.
Local Notation TO_TAG := Sample.TYPE_TO_TAG.
Local Notation TO_LENGTH := Sample.TYPE_TO_LENGTH.

Lemma build_repeated_nested_field_witness :
  exists sub s,
    build Point = Ok sub
    /\ compile sub = Ok s
    /\ field_pattern TO_PYTYPE TO_TAG TO_LENGTH py_str pair_points
       = Ok (String.concat "" (repeat s 2)).
Proof.
  destruct (@build_repeated_nested_field kind TO_PYTYPE TO_TAG TO_LENGTH py_str interpreter
              "Pair" [pair_points] _ pair_points "Point"
              [fld "x" (TElementary F32); fld "y" (TElementary F32)] 2
              eq_refl (or_introl eq_refl) eq_refl eq_refl)
    as (sub & s & Hsub & Hs & _ & Hpat).
  exists sub, s. split; [exact Hsub | split; [exact Hs | exact Hpat]].
Defined.

Lemma build_repeated_nested_failure_witness :
  build Crate
  = Raise (Exception
             "cannot have unannotated list, string, or bytes type (length required, field: text)").
Proof.
  destruct (@build_repeated_nested_failure kind TO_PYTYPE TO_TAG TO_LENGTH py_str interpreter
              "Crate" [] crate_items [] Bare 0 _ eq_refl eq_refl eq_refl)
    as (e & He & Hmsg).
  rewrite (Hmsg eq_refl) in He. exact He.
Defined.

Lemma build_unsupported_list_type_witness :
  build (TDataclass "Roster" [names_list])
  = Raise (Exception "unsupported list type: <class 'str'> (field: names)").
Proof.
  destruct (@build_unsupported_list_type kind TO_PYTYPE TO_TAG TO_LENGTH py_str interpreter
              "Roster" [] names_list [] TStr 2 eq_refl eq_refl eq_refl)
    as (e & He & Hmsg).
  rewrite (Hmsg eq_refl) in He. exact He.
Defined.

Lemma build_list_argument_count_witness :
  build (TDataclass "Mixed" [mixed_list])
  = Raise (Exception "list must contain only one kind of data type (field: xs)").
Proof.
  destruct (@build_list_argument_count kind TO_PYTYPE TO_TAG TO_LENGTH py_str interpreter
              "Mixed" [] mixed_list [] [TElementary U8; TElementary U8] 2
              eq_refl ltac:(discriminate))
    as (e & He & Hmsg).
  rewrite (Hmsg eq_refl) in He. exact He.
Defined.

Lemma build_unsupported_annotated_type_witness :
  build (TDataclass "Sized" [sized_kind])
  = Raise (Exception
             "unsupported annotated type: bytechomp.datatypes.U8 (field: n)").
Proof.
  destruct (@build_unsupported_annotated_type kind TO_PYTYPE TO_TAG TO_LENGTH py_str interpreter
              "Sized" [] sized_kind [] (TElementary U8) 2 eq_refl eq_refl)
    as (e & He & Hmsg).
  rewrite (Hmsg eq_refl) in He. exact He.
Defined.

Lemma build_unsupported_data_type_witness :
  build (TDataclass "Plain" [plain_int])
  = Raise (Exception "unsupported data type (<class 'int'>) on field n").
Proof.
  destruct (@build_unsupported_data_type kind TO_PYTYPE TO_TAG TO_LENGTH py_str interpreter
              "Plain" [] plain_int [] eq_refl eq_refl eq_refl eq_refl)
    as (e & He & Hmsg).
  rewrite (Hmsg eq_refl) in He. exact He.
Defined.

Lemma build_annotated_argument_count_witness :
  build Frame3
  = Raise (Exception "annotated value should only have two arguments (field: payload)").
Proof.
  destruct (@build_annotated_argument_count kind TO_PYTYPE TO_TAG TO_LENGTH py_str interpreter
              "Frame3" [] frame3_payload [] TStr [PInt 4; PInt 8]
              eq_refl ltac:(discriminate))
    as (e & He & Hmsg).
  rewrite (Hmsg eq_refl) in He. exact He.
Defined.

Lemma build_length_not_int_witness :
  build (TDataclass "Flag" [flag_length])
  = Raise (Exception "second annotated argument must be an integer to denote length").
Proof.
  destruct (@build_length_not_int kind TO_PYTYPE TO_TAG TO_LENGTH py_str interpreter
              "Flag" [] flag_length [] TStr (PBool true) eq_refl eq_refl)
    as (e & He & Hmsg).
  rewrite (Hmsg eq_refl) in He. exact He.
Defined.

Lemma build_error_names_field_witness :
  exists nm msg,
    In nm (field_names_deep Wrap)
    /\ build Wrap = Raise (Exception msg)
    /\ contains nm msg = true.
Proof.
  destruct (@build_error_names_field kind TO_PYTYPE TO_TAG TO_LENGTH py_str interpreter
              "Wrap" [fld "inner" Bare] _ eq_refl)
    as [H|(nm & Hin & Hc)]; [discriminate H|].
  exists nm. eexists. split; [exact Hin|]. split; [reflexivity | exact Hc].
Defined.

Lemma build_keys_witness :
  exists d,
    build Message = Ok d
    /\ map fst d = ["__struct_type__"; "a"; "b"; "c"]
    /\ od_get "__struct_type__" d = Some (EType Message).
Proof.
  eexists. split; [vm_compute; reflexivity|].
  exact (@build_keys kind TO_PYTYPE TO_TAG TO_LENGTH py_str interpreter "Message"
           [fld "a" (TElementary U32); message_b; message_c] _ eq_refl eq_refl).
Defined.

Lemma build_data_pattern_visible_witness :
  exists d ps,
    build Shadow = Ok d
    /\ Forall2 (fun f s => field_pattern TO_PYTYPE TO_TAG TO_LENGTH py_str f = Ok s)
               [fld "b" (TElementary U8)] ps
    /\ compile d = Ok (String.concat "" ps).
Proof.
  eexists.
  destruct (@build_data_pattern_visible kind TO_PYTYPE TO_TAG TO_LENGTH py_str interpreter
              "Shadow" [fld "__struct_type__" (TElementary U8); fld "b" (TElementary U8)]
              _ eq_refl eq_refl)
    as (ps & Hps & Hd).
  exists ps. split; [reflexivity | split; [exact Hps | exact Hd]].
Defined.

Lemma build_data_pattern_leaf_tags_witness :
  exists d,
    build Pair = Ok d
    /\ compile d = Ok (String.concat "" (map (@parser_tag _) (leaves d)))
    /\ map (@parser_tag _) (leaves d) = ["f"; "f"; "f"; "f"].
Proof.
  eexists. split; [vm_compute; reflexivity|]. split; [|reflexivity].
  exact (@build_data_pattern_leaf_tags kind TO_PYTYPE TO_TAG TO_LENGTH py_str interpreter
           Pair _ eq_refl eq_refl).
Defined.

Lemma build_data_pattern_Raise_witness :
  compile nested_lists = Raise (Exception "invalid list type found (a)")
  /\ compile kind_under_key
     = Raise (Exception "invalid element type found (a: <class 'typing.NewType'>)")
  /\ exists k,
      k <> "__struct_type__"
      /\ (Exception "invalid element type found (a: <class 'typing.NewType'>)"
          = Exception ("invalid list type found (" ++ k ++ ")")
          \/ exists t,
              Exception "invalid element type found (a: <class 'typing.NewType'>)"
              = Exception ("invalid element type found (" ++ k ++ ": "
                           ++ py_type_str t ++ ")")).
Proof.
  split; [reflexivity|]. split; [reflexivity|].
  exact (@build_data_pattern_Raise kind interpreter kind_under_key _ eq_refl).
Defined.

Lemma built_leaf_fresh_witness :
  exists d b,
    build Message = Ok d
    /\ In b (leaves d)
    /\ parsing_type b = TStr
    /\ raw_data b = [] /\ parsed_value b = PNone /\ python_type b = TStr.
Proof.
  eexists. eexists. split; [vm_compute; reflexivity|].
  split; [right; left; reflexivity|]. split; [reflexivity|].
  exact (@built_leaf_fresh kind TO_PYTYPE TO_TAG TO_LENGTH py_str interpreter
           Message _ _ eq_refl (or_intror (or_introl eq_refl))).
Defined.

Lemma field_pattern_type_only_witness :
  field_pattern TO_PYTYPE TO_TAG TO_LENGTH py_str (fld "renamed" (TElementary U32))
  = Ok "I".
Proof.
  exact (@field_pattern_type_only kind TO_PYTYPE TO_TAG TO_LENGTH py_str interpreter
           reading_a (fld "renamed" (TElementary U32)) "I" eq_refl eq_refl eq_refl).
Defined.

End MoreScenarios.
